(** * RecordEngine (src/js/engine/record-engine.js)

    A shallow embedding of the [RecordEngine] base class of videojs-record
    and the properties of its operations: the constructor, [dispose],
    [addFileInfo], [onStopRecording] and [saveAs].

    The class is glue code over the browser platform, so the embedding is a
    state-and-exception monad over a [world]: the JavaScript heap (foreign
    objects: blobs, files, option bags, dates, anchor elements), the
    engine's own field [recordedData], the wall clock read by [new Date()],
    the blob URL store, and the chronological log of the calls the engine
    makes into the host (URL, DOM, navigator, event emitter). *)

From Stdlib Require Import ZArith Ascii String.
From stdpp Require Import base option strings list gmap pretty.

Local Open Scope string_scope.
Local Open Scope Z_scope.

(** ** JavaScript values and thrown errors *)

Definition loc := positive.

Inductive value :=
  | VUndefined
  | VNull
  | VBool (b : bool)
  | VNum (n : Z)
  | VStr (s : string)
  | VRef (l : loc).
Arguments VRef l%_positive.

#[global] Instance value_eq_dec : EqDecision value.
Proof. solve_decision. Defined.

(** The constructor of a thrown error object, as [instanceof] sees it. *)
Inductive error_class :=
  | TypeError
  | RangeError
  | ReferenceError
  | DOMException
  | GenericError.

#[global] Instance error_class_eq_dec : EqDecision error_class.
Proof. solve_decision. Defined.

Record exn := Exn { exn_class : error_class; exn_message : string }.

#[global] Instance exn_eq_dec : EqDecision exn.
Proof. solve_decision. Defined.

(** [e instanceof TypeError] *)
Definition instanceof_TypeError (e : exn) : bool :=
  bool_decide (exn_class e = TypeError).

(** ** Objects

    A property, as resolved through the prototype chain, is either a
    writable data property, a property that cannot be written (a getter-only
    accessor such as [File.prototype.name]: a strict-mode write raises a
    [TypeError]; the module is an ES module, hence strict), or an accessor
    whose setter raises an error of its own. *)

Inductive slot :=
  | Data (v : value)
  | GetterOnly (v : value)
  | SetterRaises (v : value) (e : exn).

Definition slot_value (s : slot) : value :=
  match s with
  | Data v | GetterOnly v | SetterRaises v _ => v
  end.

Definition is_data (s : slot) : bool :=
  match s with Data _ => true | _ => false end.

(** The platform class of an object.  A [Blob] and a [File] carry their MIME
    type, a [Date] its time value (milliseconds since the epoch). *)
Inductive js_class :=
  | Plain
  | Blob (type : string)
  | File (type : string)
  | Date (time : Z)
  | Anchor.

Record object := Object {
  class : js_class;
  extensible : bool;
  props : gmap string slot
}.

(** ** Calls into the host, in the order they are made *)

Inductive event :=
  | EvRevokeObjectURL (url : string)            (* URL.revokeObjectURL *)
  | EvCreateObjectURL (data : value) (url : string) (* URL.createObjectURL *)
  | EvCreateElement (tag : string) (l : loc)    (* document.createElement *)
  | EvAppendChild (to_body : bool) (l : loc)    (* (body || documentElement).appendChild *)
  | EvClick (l : loc)                           (* hyperlink.click() *)
  | EvDispatchClick (l : loc)                   (* hyperlink.dispatchEvent(new MouseEvent('click', ...)) *)
  | EvMsSaveOrOpenBlob (data fileName : value)  (* navigator.msSaveOrOpenBlob *)
  | EvMsSaveBlob (data fileName : value)        (* navigator.msSaveBlob *)
  | EvTrigger (type : string).                  (* this.trigger *)

#[global] Instance event_eq_dec : EqDecision event.
Proof. solve_decision. Defined.

(** ** The world *)

Record world := World {
  heap : gmap loc object;
  recordedData : value;          (* this.recordedData *)
  clock : Z;                     (* what new Date().getTime() observes *)
  object_urls : gset string;     (* the blob URL store: live object URLs *)
  url_counter : N;               (* serial of the next object URL *)
  trace : list event
}.

Definition set_heap (h : gmap loc object) (w : world) : world :=
  World h (recordedData w) (clock w) (object_urls w) (url_counter w) (trace w).

Definition set_recordedData (v : value) (w : world) : world :=
  World (heap w) v (clock w) (object_urls w) (url_counter w) (trace w).

Definition log (ev : event) (w : world) : world :=
  World (heap w) (recordedData w) (clock w) (object_urls w) (url_counter w)
        (trace w ++ [ev]).

(** ** The monad: a computation returns or throws, and keeps the world it
    reached either way (a JavaScript exception does not roll back writes). *)

Inductive outcome (A : Type) :=
  | Return (a : A) (w : world)
  | Raise (e : exn) (w : world).
Arguments Return {A} a w.
Arguments Raise {A} e w.

Definition M (A : Type) : Type := world -> outcome A.

Definition ret {A} (a : A) : M A := fun w => Return a w.
Definition throw {A} (e : exn) : M A := fun w => Raise e w.

Definition bind {A B} (m : M A) (k : A -> M B) : M B :=
  fun w => match m w with
           | Return a w' => k a w'
           | Raise e w' => Raise e w'
           end.

(** [try { m } catch (e) { h e }] *)
Definition try_catch {A} (m : M A) (h : exn -> M A) : M A :=
  fun w => match m w with
           | Return a w' => Return a w'
           | Raise e w' => h e w'
           end.

Notation "'do' x <- m ; k" := (bind m (fun x => k))
  (at level 10, x name, m at level 100, k at level 200,
   format "'[v' 'do'  x  <-  m ; '/' k ']'").
Notation "'run' m ; k" := (bind m (fun _ => k))
  (at level 10, m at level 100, k at level 200,
   format "'[v' 'run'  m ; '/' k ']'").

Definition final_world {A} (o : outcome A) : world :=
  match o with Return _ w | Raise _ w => w end.


(** ** Strings

    [String.prototype.split] with a one-character separator.  The result of
    [split] always has a first element; it is kept apart from the others so
    that [xs[0]] is a string and [xs[1]] may be [undefined]. *)

Fixpoint split (sep : ascii) (s : string) : string * list string :=
  match s with
  | EmptyString => ("", [])
  | String c s' =>
      let '(x, xs) := split sep s' in
      if Ascii.eqb c sep then ("", x :: xs) else (String c x, xs)
  end.

(** [xs[0]] and [xs[1]] of a split result; [None] is [undefined]. *)
Definition at0 (xs : string * list string) : string := xs.1.
Definition at1 (xs : string * list string) : option string := head xs.2.

(** [s.indexOf(c)]: the index of the first occurrence, or -1. *)
Fixpoint indexOf (c : ascii) (s : string) : Z :=
  match s with
  | EmptyString => -1
  | String a s' =>
      if Ascii.eqb a c then 0
      else let i := indexOf c s' in
           if i <? 0 then -1 else i + 1
  end.

(** [s + x] where [x] is a string or [undefined]. *)
Definition concat_opt (s : string) (x : option string) : string :=
  s ++ default "undefined" x.

(** [Number.prototype.toString] on an integral number below 1e21 in
    magnitude (every time value of a Date is): the decimal digits. *)
Definition Number_toString (n : Z) : string := pretty n.

(** ** Primitive operations of the platform *)

Definition class_of (w : world) (v : value) : option js_class :=
  match v with
  | VRef l => class <$> heap w !! l
  | _ => None
  end.

(** [v instanceof Blob]; [File] inherits from [Blob]. *)
Definition instanceof_Blob (w : world) (v : value) : bool :=
  match class_of w v with
  | Some (Blob _) | Some (File _) => true
  | _ => false
  end.

(** [v instanceof File] *)
Definition instanceof_File (w : world) (v : value) : bool :=
  match class_of w v with
  | Some (File _) => true
  | _ => false
  end.

(** The string a value converts to where the platform expects a string.
    Blobs and files are rendered by their class; the other objects, which
    the engine never passes where a string is expected, all read as a plain
    object does. *)
Definition ToString (w : world) (v : value) : string :=
  match v with
  | VUndefined => "undefined"
  | VNull => "null"
  | VBool true => "true"
  | VBool false => "false"
  | VNum n => Number_toString n
  | VStr s => s
  | VRef l =>
      match class_of w v with
      | Some (Blob _) => "[object Blob]"
      | Some (File _) => "[object File]"
      | _ => "[object Object]"
      end
  end.

Definition type_error (msg : string) : exn := Exn TypeError msg.

(** [base.k = v] in strict mode. *)
Definition put (base : value) (k : string) (v : value) : M unit := fun w =>
  match base with
  | VUndefined | VNull =>
      Raise (type_error "Cannot set properties of undefined or null") w
  | VBool _ | VNum _ | VStr _ =>
      Raise (type_error "Cannot create property on a primitive") w
  | VRef l =>
      match heap w !! l with
      | None => Raise (type_error "dangling reference") w
      | Some o =>
          let store :=
            Return tt (set_heap (<[l := Object (class o) (extensible o)
                                               (<[k := Data v]> (props o))]>
                                 (heap w)) w) in
          match props o !! k with
          | Some (Data _) => store
          | Some (GetterOnly _) =>
              Raise (type_error "Cannot set property which has only a getter") w
          | Some (SetterRaises _ e) => Raise e w
          | None =>
              if extensible o then store
              else Raise (type_error "Cannot add property, object is not extensible") w
          end
      end
  end.

(** [base.k] as an rvalue; an absent property reads as [undefined]. *)
Definition get (w : world) (base : value) (k : string) : value :=
  match base with
  | VRef l =>
      match heap w !! l with
      | Some o => default VUndefined (slot_value <$> props o !! k)
      | None => VUndefined
      end
  | _ => VUndefined
  end.

Definition alloc (o : object) : M loc := fun w =>
  let l := fresh (dom (heap w)) in
  Return l (set_heap (<[l := o]> (heap w)) w).

(** [new Date()] *)
Definition new_Date : M value := fun w =>
  bind (alloc (Object (Date (clock w)) true ∅)) (fun l => ret (VRef l)) w.

(** [d.getTime()] *)
Definition getTime (d : value) : M Z := fun w =>
  match class_of w d with
  | Some (Date t) => Return t w
  | _ => Raise (type_error "this is not a Date object") w
  end.

(** [fileObj.type] of a blob or file. *)
Definition get_type (fileObj : value) : M string := fun w =>
  match class_of w fileObj with
  | Some (Blob t) | Some (File t) => Return t w
  | _ => Raise (type_error "Cannot read properties of undefined (reading 'split')") w
  end.

(** [URL.revokeObjectURL(v)]: the argument is converted to a string and the
    entry, if any, leaves the blob URL store. *)
Definition URL_revokeObjectURL (v : value) : M unit := fun w =>
  let url := ToString w v in
  let w' := log (EvRevokeObjectURL url) w in
  Return tt (World (heap w') (recordedData w') (clock w')
                   (object_urls w' ∖ {[ url ]}) (url_counter w') (trace w')).

(** [URL.createObjectURL(v)] *)
Definition URL_createObjectURL (v : value) : M string := fun w =>
  if instanceof_Blob w v then
    let url := "blob:" ++ pretty (url_counter w) in
    let w' := log (EvCreateObjectURL v url) w in
    Return url (World (heap w') (recordedData w') (clock w')
                      ({[ url ]} ∪ object_urls w') (N.succ (url_counter w'))
                      (trace w'))
  else Raise (type_error "Failed to execute 'createObjectURL' on 'URL'") w.

(** [this.trigger(type)] of the evented mixin. *)
Definition trigger (type : string) : M unit := fun w =>
  Return tt (log (EvTrigger type) w).

(** [document.createElement(tag)]: a fresh element whose reflected
    attributes are ordinary writable properties. *)
Definition document_createElement (tag : string) : M loc :=
  do l <- alloc (Object Anchor true
                   (<["href" := Data (VStr "")]>
                    (<["download" := Data (VStr "")]>
                     (<["target" := Data (VStr "")]> ∅))));
  run (fun w => Return tt (log (EvCreateElement tag l) w));
  ret l.

Definition host (ev : event) : M unit := fun w => Return tt (log ev w).

(** ** The platform surface [saveAs] branches over *)

Record platform := Platform {
  (* navigator.msSaveOrOpenBlob and navigator.msSaveBlob, where defined;
     a call returns a value or throws *)
  msSaveOrOpenBlob : option (value -> value -> exn + value);
  msSaveBlob : option (value -> value -> exn + value);
  (* document.body is not null *)
  has_body : bool;
  (* typeof hyperlink.click === 'function' *)
  has_click : bool
}.

Definition host_call (ev : event) (r : exn + value) : M value := fun w =>
  match r with
  | inl e => Raise e (log ev w)
  | inr v => Return v (log ev w)
  end.

(** An object literal such as [{'video': 'foo'}]: its own enumerable
    properties in the order [Object.keys] lists them. *)
Definition Object_keys (o : list (string * value)) : list string := o.*1.

(** [o[k]] where [k] is a key or [undefined] (which names the property
    "undefined"). *)
Definition member (o : list (string * value)) (k : option string) : value :=
  let key := default "undefined" k in
  default VUndefined
    ((fun r => r.2.2) <$> list_find (fun kv => bool_decide (kv.1 = key)) o).

(** ** The class [RecordEngine] *)

Definition this_recordedData : M value := fun w => Return (recordedData w) w.

Definition assign_recordedData (v : value) : M unit := fun w =>
  Return tt (set_recordedData v w).

Section Constructor.

(** [super(player, options)]: the constructor of video.js' [Component],
    which lives outside this repository. *)
Variable Component_constructor : value -> value -> M unit.

Definition constructor (player options : value) : M unit :=
  run put options "evented" (VBool true);
  Component_constructor player options.

End Constructor.

Definition dispose : M unit :=
  do rd <- this_recordedData;
  if bool_decide (rd ≠ VUndefined) then URL_revokeObjectURL rd
  else ret tt.

(** The two [catch] clauses of [addFileInfo]. *)
Definition ignore_TypeError (e : exn) : M unit :=
  if instanceof_TypeError e then ret tt else throw e.

(** Lines 74-77: the extension guessed from the MIME type. *)
Definition guess_extension (type : string) : string :=
  let fileExtension := concat_opt "." (at1 (split "/" type)) in
  if -1 <? indexOf ";" fileExtension
  then at0 (split ";" fileExtension)
  else fileExtension.

Definition addFileInfo (fileObj : value) : M unit := fun w =>
  if instanceof_Blob w fileObj || instanceof_File w fileObj then
    (do now <- new_Date;
     run try_catch
           (do t <- getTime now;
            run put fileObj "lastModified" (VNum t);
            put fileObj "lastModifiedDate" now)
           ignore_TypeError;
     do type <- get_type fileObj;
     let fileExtension := guess_extension type in
     try_catch
       (do t <- getTime now;
        put fileObj "name" (VStr (Number_toString t ++ fileExtension)))
       ignore_TypeError) w
  else Return tt w.

Definition onStopRecording (data : value) : M unit :=
  run assign_recordedData data;
  do rd <- this_recordedData;
  run addFileInfo rd;
  run dispose;
  trigger "recordComplete".

Definition saveAs (p : platform) (name : list (string * value)) (data : value)
  : M value :=
  do data <- (if bool_decide (data = VUndefined) then this_recordedData
              else ret data);
  let fileName := member name (head (Object_keys name)) in
  match msSaveOrOpenBlob p, msSaveBlob p with
  | Some f, _ => host_call (EvMsSaveOrOpenBlob data fileName) (f data fileName)
  | None, Some f => host_call (EvMsSaveBlob data fileName) (f data fileName)
  | None, None =>
      do hyperlink <- document_createElement "a";
      do url <- URL_createObjectURL data;
      run put (VRef hyperlink) "href" (VStr url);
      run (fun w => put (VRef hyperlink) "download" (VStr (ToString w fileName)) w);
      run put (VRef hyperlink) "style"
              (VStr "display:none;opacity:0;color:transparent;");
      run host (EvAppendChild (has_body p) hyperlink);
      run (if has_click p then host (EvClick hyperlink)
           else run put (VRef hyperlink) "target" (VStr "_blank");
                host (EvDispatchClick hyperlink));
      run (fun w => URL_revokeObjectURL (get w (VRef hyperlink) "href") w);
      ret VUndefined
  end.

(** ** Auxiliary notions used in the statements *)

(** The error that assigning property [k] of [o] raises, if any. *)
Definition write_error (o : object) (k : string) : option exn :=
  match props o !! k with
  | Some (Data _) => None
  | Some (GetterOnly _) =>
      Some (type_error "Cannot set property which has only a getter")
  | Some (SetterRaises _ e) => Some e
  | None =>
      if extensible o then None
      else Some (type_error "Cannot add property, object is not extensible")
  end.

Definition with_prop (o : object) (k : string) (v : value) : object :=
  Object (class o) (extensible o) (<[k := Data v]> (props o)).

Definition update (l : loc) (o : object) (w : world) : world :=
  set_heap (<[l := o]> (heap w)) w.

(** The errors a [catch] clause of [addFileInfo] lets through. *)
Definition escaping (r : option exn) : option exn :=
  match r with
  | Some e => if instanceof_TypeError e then None else Some e
  | None => None
  end.

Definition blob_type (c : js_class) : option string :=
  match c with
  | Blob t | File t => Some t
  | _ => None
  end.

Definition prop_of (o : object) (k : string) : value :=
  default VUndefined (slot_value <$> props o !! k).


(** The two [try] blocks of [addFileInfo] seen from the file object: the
    object a block leaves behind and the error it raised, if any. [t] is
    [now.getTime()]. *)
Definition stamp_times (o : object) (t : Z) (now : value) : object * option exn :=
  match write_error o "lastModified" with
  | Some e => (o, Some e)
  | None =>
      let o1 := with_prop o "lastModified" (VNum t) in
      match write_error o1 "lastModifiedDate" with
      | Some e => (o1, Some e)
      | None => (with_prop o1 "lastModifiedDate" now, None)
      end
  end.

Definition stamp_name (o : object) (t : Z) (type : string) : object * option exn :=
  match write_error o "name" with
  | Some e => (o, Some e)
  | None =>
      (with_prop o "name" (VStr (Number_toString t ++ guess_extension type)), None)
  end.

(** The error raised inside the first [try] block (the write of
    [lastModified], then of [lastModifiedDate]) and inside the second (the
    write of [name]). *)
Definition times_error (o : object) : option exn :=
  match write_error o "lastModified" with
  | Some e => Some e
  | None => write_error o "lastModifiedDate"
  end.

Definition name_error (o : object) : option exn := write_error o "name".

(** An options bag is "the key/value store of player options": an ordinary
    extensible object all of whose properties are plain data. *)
Definition key_value_store (o : object) : bool :=
  extensible o && bool_decide (map_Forall (fun _ s => is_data s = true) (props o)).

Definition options_bag (w : world) (options : value) : bool :=
  match options with
  | VRef l => from_option key_value_store false (heap w !! l)
  | _ => false
  end.

(** What the constructor needs from the base class: [Component] copies the
    options it is given and does not write the caller's [evented] back. *)
Definition leaves_evented_alone (C : value -> value -> M unit) : Prop :=
  forall player options w w',
    C player options w = Return tt w' ->
    get w' options "evented" = get w options "evented".

(** A base constructor for the examples: it merges the options into a fresh
    object of its own, as video.js does. *)
Definition Component_merge (player options : value) : M unit := fun w =>
  let own :=
    match options with
    | VRef l => from_option props ∅ (heap w !! l)
    | _ => ∅
    end in
  bind (alloc (Object Plain true own)) (fun _ => ret tt) w.

(** The events a call appended to the log. *)
Definition new_events (w w' : world) : list event :=
  drop (length (trace w)) (trace w').

Definition occurrences (ev : event) (evs : list event) : nat :=
  length (filter (fun x => x = ev) evs).

(** The elements [document.createElement] made, in order. *)
Definition created_elements (evs : list event) : list loc :=
  omap (fun ev => match ev with EvCreateElement _ l => Some l | _ => None end) evs.

(** [addFileInfo] returns and leaves [<timestamp><ext>] in the [name] of
    the file object, the timestamp being the time [new Date()] read. *)
Definition assigns_name (w : world) (fileObj : value) (ext : string) : Prop :=
  exists w',
    addFileInfo fileObj w = Return tt w' /\
    get w' fileObj "name" = VStr (Number_toString (clock w) ++ ext).

(** ** Properties the specification words more strongly than the code
    behaves, as it words them *)

(** "For every blob input, onStopRecording stores it, then calls
    addFileInfo, then dispose, and finally triggers recordComplete exactly
    once." *)
Definition completes_recording (w : world) (data : value) : Prop :=
  exists w1 w2 w3 w4,
    assign_recordedData data w = Return tt w1 /\
    recordedData w1 = data /\
    addFileInfo data w1 = Return tt w2 /\
    dispose w2 = Return tt w3 /\
    trigger "recordComplete" w3 = Return tt w4 /\
    onStopRecording data w = Return tt w4 /\
    recordedData w4 = data /\
    occurrences (EvTrigger "recordComplete") (new_events w w4) = 1%nat.

(** "addFileInfo sets name to <timestamp>.ogg, where <timestamp> is the
    value it also assigns to lastModified." *)
Definition stamps_ogg_name (w : world) (fileObj : value) : Prop :=
  exists w' t,
    addFileInfo fileObj w = Return tt w' /\
    get w' fileObj "lastModified" = VNum t /\
    get w' fileObj "name" = VStr (Number_toString t ++ ".ogg").

(** "A MIME type with no '/' or with an empty subtype yields the extension
    '.'." *)
Definition degenerate_dot (type : string) : Prop := guess_extension type = ".".

Definition no_slash (type : string) : bool := bool_decide (indexOf "/" type = -1).

Definition empty_subtype (type : string) : Prop :=
  exists major tail,
    type = major ++ "/" ++ tail /\
    indexOf "/" major = -1 /\
    (tail = "" \/ exists params, tail = ";" ++ params).

(** ** A sample world *)

Definition blob_ogg : object := Object (Blob "audio/ogg") true ∅.

(** A [File]: [name] and [lastModified] are getter-only. *)
Definition file_ogg : object :=
  Object (File "audio/ogg") true
    (<["name" := GetterOnly (VStr "take.ogg")]>
     (<["lastModified" := GetterOnly (VNum 1400000000000)]> ∅)).

(** A blob whose [name] has a setter that raises a [RangeError]. *)
Definition blob_guarded : object :=
  Object (Blob "audio/ogg") true
    (<["name" := SetterRaises VUndefined (Exn RangeError "no name")]> ∅).

Definition options_off : object :=
  Object Plain true (<["evented" := Data (VBool false)]> ∅).

Definition blob_webm : object := Object (Blob "video/webm;codecs=vp9,opus") true ∅.

(** A blob built without a type: its MIME type is the empty string. *)
Definition blob_untyped : object := Object (Blob "") true ∅.

(** A file whose [lastModified] is getter-only while [name] is writable. *)
Definition file_renamable : object :=
  Object (File "audio/ogg") true
    (<["name" := Data (VStr "take.ogg")]>
     (<["lastModified" := GetterOnly (VNum 1400000000000)]> ∅)).

Definition sample_heap : gmap loc object :=
  list_to_map [(1%positive, blob_ogg); (2%positive, file_ogg);
               (3%positive, blob_guarded); (4%positive, options_off);
               (5%positive, blob_webm); (6%positive, blob_untyped);
               (7%positive, file_renamable)].

Definition sample_world : world :=
  World sample_heap VUndefined 1451180941326 ∅ 0 [].

Definition no_legacy_save : platform := Platform None None true true.

Definition legacy_save : platform :=
  Platform (Some (fun _ _ => inr (VBool true))) None true true.

(** ** Further notions: the object URLs handed out *)

(** The object URL of serial [n]. *)
Definition object_url (n : N) : string := "blob:" ++ pretty n.

(** Every live object URL was handed out by [URL.createObjectURL]: it
    carries a serial below the counter. *)
Definition urls_wf (w : world) : Prop :=
  forall u, u ∈ object_urls w ->
            exists n, (n < url_counter w)%N /\ u = object_url n.

(** A world after a recording: the first sample blob is the recorded data
    and one object URL is live. *)
Definition recorded_world : world :=
  World sample_heap (VRef 1) 1451180941326 {[ "blob:0" ]} 1 [].

(** The data [saveAs] works on: the argument, or the recorded data when the
    argument is [undefined]. *)
Definition data_to_save (w : world) (data : value) : value :=
  if bool_decide (data = VUndefined) then recordedData w else data.

(** The file name [saveAs] takes from the name object. *)
Definition name_to_save (name : list (string * value)) : value :=
  member name (head (Object_keys name)).

(** * Reasoning about the embedding *)

(** Closed goals over the sample world are settled by evaluation. *)
Ltac by_evaluation := vm_compute; reflexivity.

(** ** Property writes *)

Lemma put_ref w l o k v :
  heap w !! l = Some o ->
  put (VRef l) k v w =
    match write_error o k with
    | Some e => Raise e w
    | None => Return tt (update l (with_prop o k v) w)
    end.
Proof.
  intros Hl. unfold put, write_error. rewrite Hl.
  destruct (props o !! k) as [[?|?|? ?]|]; try reflexivity.
  unfold update, with_prop. destruct (extensible o); reflexivity.
Qed.

Lemma get_ref w l o k : heap w !! l = Some o -> get w (VRef l) k = prop_of o k.
Proof. intros Hl. unfold get. now rewrite Hl. Qed.

Lemma update_id w l o : heap w !! l = Some o -> update l o w = w.
Proof.
  intros Hl. unfold update, set_heap. rewrite insert_id by done. now destruct w.
Qed.

Lemma update_update w l o o' : update l o' (update l o w) = update l o' w.
Proof. unfold update, set_heap. simpl. now rewrite insert_insert_eq. Qed.

Lemma heap_update w l o : heap (update l o w) !! l = Some o.
Proof. unfold update. simpl. apply lookup_insert_eq. Qed.

Lemma heap_update_ne w l o l' : l ≠ l' -> heap (update l o w) !! l' = heap w !! l'.
Proof. intros. unfold update. simpl. now apply lookup_insert_ne. Qed.

Lemma write_error_with_prop_ne o k v k' :
  k ≠ k' -> write_error (with_prop o k v) k' = write_error o k'.
Proof. intros. unfold write_error, with_prop. simpl. now rewrite lookup_insert_ne. Qed.

Lemma prop_of_with_prop o k v : prop_of (with_prop o k v) k = v.
Proof. unfold prop_of, with_prop. simpl. now rewrite lookup_insert_eq. Qed.

Lemma prop_of_with_prop_ne o k v k' :
  k ≠ k' -> prop_of (with_prop o k v) k' = prop_of o k'.
Proof. intros. unfold prop_of, with_prop. simpl. now rewrite lookup_insert_ne. Qed.

(** ** Allocation *)

Lemma fresh_loc_unused w : heap w !! fresh (dom (heap w)) = None.
Proof. apply not_elem_of_dom, is_fresh. Qed.

Lemma fresh_loc_ne w l o : heap w !! l = Some o -> l ≠ fresh (dom (heap w)).
Proof. intros Hl ->. rewrite fresh_loc_unused in Hl. discriminate. Qed.

Lemma instanceof_Blob_ref w l o T :
  heap w !! l = Some o -> blob_type (class o) = Some T ->
  instanceof_Blob w (VRef l) = true.
Proof.
  intros Hl HT. unfold instanceof_Blob, class_of. rewrite Hl. simpl.
  destruct (class o); simpl in HT; congruence.
Qed.

Lemma get_type_ref w l o T :
  heap w !! l = Some o -> blob_type (class o) = Some T ->
  get_type (VRef l) w = Return T w.
Proof.
  intros Hl HT. unfold get_type, class_of. rewrite Hl. simpl.
  destruct (class o); simpl in HT; congruence.
Qed.

Lemma getTime_ref w d t ps e :
  heap w !! d = Some (Object (Date t) e ps) -> getTime (VRef d) w = Return t w.
Proof. intros Hd. unfold getTime, class_of. now rewrite Hd. Qed.

(** ** [addFileInfo] on a blob or file, step by step *)

Lemma ignore_TypeError_escaping e w :
  ignore_TypeError e w =
    match escaping (Some e) with
    | Some e' => Raise e' w
    | None => Return tt w
    end.
Proof. unfold ignore_TypeError, escaping. now destruct (instanceof_TypeError e). Qed.

Lemma first_try_block w l o t now :
  heap w !! l = Some o ->
  getTime now w = Return t w ->
  try_catch
    (do t <- getTime now;
     run put (VRef l) "lastModified" (VNum t);
     put (VRef l) "lastModifiedDate" now)
    ignore_TypeError w =
  let s := stamp_times o t now in
  match escaping s.2 with
  | Some e => Raise e (update l s.1 w)
  | None => Return tt (update l s.1 w)
  end.
Proof.
  intros Hl Ht. unfold try_catch, bind. rewrite Ht.
  rewrite (put_ref w l o) by done. unfold stamp_times.
  destruct (write_error o "lastModified") as [e|]; cbv beta iota zeta.
  - rewrite ignore_TypeError_escaping, update_id by done. reflexivity.
  - rewrite (put_ref _ l (with_prop o "lastModified" (VNum t)))
      by apply heap_update.
    destruct (write_error _ "lastModifiedDate") as [e|]; cbv beta iota zeta.
    + rewrite ignore_TypeError_escaping. reflexivity.
    + now rewrite update_update.
Qed.

Lemma second_try_block w l o t now ext :
  heap w !! l = Some o ->
  getTime now w = Return t w ->
  try_catch
    (do t <- getTime now;
     put (VRef l) "name" (VStr (Number_toString t ++ guess_extension ext)))
    ignore_TypeError w =
  let s := stamp_name o t ext in
  match escaping s.2 with
  | Some e => Raise e (update l s.1 w)
  | None => Return tt (update l s.1 w)
  end.
Proof.
  intros Hl Ht. unfold try_catch, bind. rewrite Ht.
  rewrite (put_ref w l o) by done. unfold stamp_name.
  destruct (write_error o "name") as [e|]; cbv beta iota zeta.
  - rewrite ignore_TypeError_escaping, update_id by done. reflexivity.
  - reflexivity.
Qed.

Lemma stamp_times_class o t now : class (stamp_times o t now).1 = class o.
Proof.
  unfold stamp_times. destruct (write_error o "lastModified"); [done|].
  destruct (write_error _ "lastModifiedDate"); done.
Qed.

Lemma addFileInfo_blob w l o T :
  heap w !! l = Some o -> blob_type (class o) = Some T ->
  let d := fresh (dom (heap w)) in
  let w1 := update d (Object (Date (clock w)) true ∅) w in
  let s1 := stamp_times o (clock w) (VRef d) in
  let s2 := stamp_name s1.1 (clock w) T in
  addFileInfo (VRef l) w =
    match escaping s1.2 with
    | Some e => Raise e (update l s1.1 w1)
    | None =>
        match escaping s2.2 with
        | Some e => Raise e (update l s2.1 w1)
        | None => Return tt (update l s2.1 w1)
        end
    end.
Proof.
  intros Hl HT d w1 s1 s2.
  assert (Hne : d ≠ l) by (symmetry; exact (fresh_loc_ne w l o Hl)).
  assert (Hl1 : heap w1 !! l = Some o) by (unfold w1; now rewrite heap_update_ne).
  assert (Hd : forall o', getTime (VRef d) (update l o' w1)
                          = Return (clock w) (update l o' w1)).
  { intros o'. eapply getTime_ref. rewrite heap_update_ne by congruence.
    apply heap_update. }
  assert (Hd1 : getTime (VRef d) w1 = Return (clock w) w1).
  { eapply getTime_ref. apply heap_update. }
  unfold addFileInfo. rewrite (instanceof_Blob_ref w l o T Hl HT). simpl.
  unfold bind at 1. unfold new_Date, alloc, bind at 1, ret.
  fold d. fold (update d (Object (Date (clock w)) true ∅) w). fold w1.
  unfold bind at 1.
  rewrite (first_try_block w1 l o (clock w) (VRef d) Hl1 Hd1).
  fold s1. cbv zeta.
  destruct (escaping s1.2) as [e|]; [reflexivity|].
  unfold bind at 1.
  rewrite (get_type_ref _ l s1.1 T).
  2: apply heap_update.
  2: unfold s1; now rewrite stamp_times_class.
  rewrite (second_try_block _ l s1.1 (clock w) (VRef d) T).
  2: apply heap_update.
  2: apply Hd.
  fold s2. cbv zeta. rewrite !update_update. reflexivity.
Qed.

(** ** Splitting strings *)

Lemma append_empty_l (b : string) : "" ++ b = b.
Proof. reflexivity. Qed.

Lemma append_cons (x : ascii) (a b : string) : String x a ++ b = String x (a ++ b).
Proof. reflexivity. Qed.

Lemma append_empty_r (a : string) : a ++ "" = a.
Proof. induction a as [|x a IH]; [reflexivity|]. now rewrite append_cons, IH. Qed.

Lemma indexOf_lower c s : -1 <= indexOf c s.
Proof.
  induction s as [|a s IH]; simpl; [lia|].
  destruct (Ascii.eqb a c); [lia|].
  destruct (indexOf c s <? 0) eqn:E; lia.
Qed.

Lemma indexOf_cons_absent c a s :
  indexOf c (String a s) = -1 -> Ascii.eqb a c = false /\ indexOf c s = -1.
Proof.
  simpl. destruct (Ascii.eqb a c); [discriminate|].
  pose proof (indexOf_lower c s).
  destruct (indexOf c s <? 0) eqn:E; [apply Z.ltb_lt in E|apply Z.ltb_ge in E]; lia.
Qed.

Lemma indexOf_app_present c a b :
  indexOf c a = -1 -> -1 < indexOf c (a ++ String c b).
Proof.
  induction a as [|x a IH]; intros H.
  - rewrite append_empty_l. simpl. rewrite Ascii.eqb_refl. lia.
  - rewrite append_cons. apply indexOf_cons_absent in H as [Hx H].
    specialize (IH H). simpl. rewrite Hx.
    destruct (indexOf c (a ++ String c b) <? 0) eqn:E;
      [apply Z.ltb_lt in E|apply Z.ltb_ge in E]; lia.
Qed.

Lemma split_absent c s : indexOf c s = -1 -> split c s = (s, []).
Proof.
  induction s as [|a s IH]; [reflexivity|].
  intros [Ha Hs]%indexOf_cons_absent. simpl. rewrite (IH Hs), Ha. reflexivity.
Qed.

Lemma split_app c a b :
  indexOf c a = -1 ->
  split c (a ++ b) = (a ++ (split c b).1, (split c b).2).
Proof.
  induction a as [|x a IH]; intros H.
  - rewrite !append_empty_l. destruct (split c b). reflexivity.
  - apply indexOf_cons_absent in H as [Hx H].
    rewrite !append_cons. simpl. rewrite (IH H), Hx. reflexivity.
Qed.

Lemma split_sep c b : split c (String c b) = ("", (split c b).1 :: (split c b).2).
Proof. simpl. destruct (split c b). now rewrite Ascii.eqb_refl. Qed.

(** ** The extension guessed from a MIME type *)

(** Without a '/' in the MIME type there is no second element to take:
    the extension is built from [undefined]. *)
Lemma guess_extension_no_slash type :
  indexOf "/" type = -1 -> guess_extension type = ".undefined".
Proof.
  intros H. unfold guess_extension. rewrite (split_absent _ _ H). reflexivity.
Qed.

(** With a '/', the extension is the text between it and the next '/' or
    the first ';'. *)
Lemma guess_extension_subtype major sub rest :
  indexOf "/" major = -1 ->
  indexOf "/" sub = -1 ->
  indexOf ";" sub = -1 ->
  rest = "" \/ (exists params, rest = ";" ++ params) ->
  guess_extension (major ++ "/" ++ sub ++ rest) = "." ++ sub.
Proof.
  intros Hmajor Hsub Hsemi Hrest. unfold guess_extension.
  rewrite (split_app _ major _ Hmajor).
  rewrite (append_cons "/" "" (sub ++ rest)), append_empty_l.
  rewrite split_sep, (split_app _ sub rest Hsub).
  unfold at1, at0, concat_opt. cbn [fst snd head default from_option]. unfold id.
  assert (Hdot : indexOf ";" ("." ++ sub) = -1).
  { rewrite append_cons, append_empty_l. simpl. rewrite Hsemi. reflexivity. }
  destruct Hrest as [-> | [params ->]].
  - cbn [split fst]. rewrite append_empty_r, Hdot. reflexivity.
  - rewrite (append_cons ";" "" params), append_empty_l.
    assert (Hfst : (split "/" (String ";" params)).1 = String ";" (split "/" params).1).
    { simpl. now destruct (split "/" params). }
    rewrite Hfst.
    assert (Hassoc : "." ++ sub ++ String ";" (split "/" params).1
                     = ("." ++ sub) ++ String ";" (split "/" params).1).
    { now rewrite !append_cons, !append_empty_l. }
    rewrite Hassoc.
    pose proof (indexOf_app_present ";" ("." ++ sub) (split "/" params).1 Hdot) as Hin.
    apply Z.ltb_lt in Hin. rewrite Hin.
    rewrite (split_app _ ("." ++ sub) _ Hdot), split_sep. cbn [fst].
    apply append_empty_r.
Qed.

(** The MIME types the source comments mention. *)
Example guess_extension_ogg : guess_extension "audio/ogg" = ".ogg".
Proof. reflexivity. Qed.

Example guess_extension_h264 :
  guess_extension "video/webm;codecs=h264,vp9,opus" = ".webm".
Proof. reflexivity. Qed.

Example guess_extension_trailing_slash : guess_extension "audio/" = ".".
Proof. reflexivity. Qed.

Example guess_extension_bare : guess_extension "audio" = ".undefined".
Proof. reflexivity. Qed.

Example split_three : split "/" "a/b/c" = ("a", ["b"; "c"]).
Proof. reflexivity. Qed.

Example indexOf_semicolon : indexOf ";" ".webm;codecs=vp9,opus" = 5.
Proof. reflexivity. Qed.

(** ** What the two [try] blocks do to the file object *)

Lemma stamp_times_error o t now : (stamp_times o t now).2 = times_error o.
Proof.
  unfold stamp_times, times_error.
  destruct (write_error o "lastModified"); [reflexivity|].
  rewrite write_error_with_prop_ne by done.
  destruct (write_error o "lastModifiedDate"); reflexivity.
Qed.

Lemma stamp_times_name_error o t now :
  name_error (stamp_times o t now).1 = name_error o.
Proof.
  unfold stamp_times, name_error.
  destruct (write_error o "lastModified"); [reflexivity|].
  destruct (write_error _ "lastModifiedDate"); cbn [fst];
    now rewrite ?write_error_with_prop_ne by done.
Qed.

Lemma stamp_times_name o t now :
  prop_of (stamp_times o t now).1 "name" = prop_of o "name".
Proof.
  unfold stamp_times.
  destruct (write_error o "lastModified"); [reflexivity|].
  destruct (write_error _ "lastModifiedDate"); cbn [fst];
    now rewrite ?prop_of_with_prop_ne by done.
Qed.

Lemma stamp_times_lastModified o t now :
  write_error o "lastModified" = None ->
  prop_of (stamp_times o t now).1 "lastModified" = VNum t.
Proof.
  intros H. unfold stamp_times. rewrite H.
  destruct (write_error _ "lastModifiedDate"); cbn [fst].
  - apply prop_of_with_prop.
  - rewrite prop_of_with_prop_ne by done. apply prop_of_with_prop.
Qed.

Lemma stamp_name_class o t T : class (stamp_name o t T).1 = class o.
Proof. unfold stamp_name. now destruct (write_error o "name"). Qed.

Lemma stamp_name_written o t T :
  name_error o = None ->
  prop_of (stamp_name o t T).1 "name"
  = VStr (Number_toString t ++ guess_extension T).
Proof.
  unfold name_error, stamp_name. intros ->. apply prop_of_with_prop.
Qed.

Lemma stamp_name_refused o t T :
  name_error o <> None -> (stamp_name o t T).1 = o.
Proof.
  unfold name_error, stamp_name. now destruct (write_error o "name").
Qed.

Lemma stamp_name_lastModified o t T :
  prop_of (stamp_name o t T).1 "lastModified" = prop_of o "lastModified".
Proof.
  unfold stamp_name. destruct (write_error o "name"); cbn [fst]; [reflexivity|].
  now rewrite prop_of_with_prop_ne by done.
Qed.

(** ** The outcome of [addFileInfo] on a blob or file

    [addFileInfo] raises exactly the first error that is not a [TypeError];
    it touches nothing but the file object (and the date it allocates). *)

Lemma addFileInfo_outcome w l o T :
  heap w !! l = Some o -> blob_type (class o) = Some T ->
  exists w' o',
    addFileInfo (VRef l) w =
      match escaping (times_error o) with
      | Some e => Raise e w'
      | None =>
          match escaping (name_error o) with
          | Some e => Raise e w'
          | None => Return tt w'
          end
      end /\
    heap w' !! l = Some o' /\
    class o' = class o /\
    recordedData w' = recordedData w /\
    trace w' = trace w /\
    object_urls w' = object_urls w /\
    (escaping (times_error o) = None -> name_error o = None ->
     prop_of o' "name" = VStr (Number_toString (clock w) ++ guess_extension T)) /\
    (name_error o <> None -> prop_of o' "name" = prop_of o "name") /\
    (write_error o "lastModified" = None ->
     prop_of o' "lastModified" = VNum (clock w)).
Proof.
  intros Hl HT. pose proof (addFileInfo_blob w l o T Hl HT) as H.
  cbv zeta in H. rewrite stamp_times_error in H.
  set (d := fresh (dom (heap w))) in *.
  set (w1 := update d _ w) in *.
  set (o1 := (stamp_times o (clock w) (VRef d)).1) in *.
  assert (Hn : (stamp_name o1 (clock w) T).2 = name_error o).
  { unfold o1. rewrite <- (stamp_times_name_error o (clock w) (VRef d)).
    unfold stamp_name, name_error. now destruct (write_error _ "name"). }
  rewrite Hn in H.
  destruct (escaping (times_error o)) as [e|] eqn:E1.
  - exists (update l o1 w1), o1. split; [exact H|].
    split; [apply heap_update|]. split; [apply stamp_times_class|].
    do 3 (split; [reflexivity|]).
    split; [discriminate|].
    split; [intros _; apply stamp_times_name|].
    apply stamp_times_lastModified.
  - exists (update l (stamp_name o1 (clock w) T).1 w1), (stamp_name o1 (clock w) T).1.
    split; [rewrite H; now destruct (escaping (name_error o))|].
    split; [apply heap_update|].
    split; [rewrite stamp_name_class; apply stamp_times_class|].
    do 3 (split; [reflexivity|]).
    split; [|split].
    + intros _ Hname. apply stamp_name_written.
      unfold o1. now rewrite stamp_times_name_error.
    + intros Hname. rewrite stamp_name_refused.
      * apply stamp_times_name.
      * unfold o1. now rewrite stamp_times_name_error.
    + intros Hw. rewrite stamp_name_lastModified.
      now apply stamp_times_lastModified.
Qed.

(** ** Key/value stores accept every write *)

Lemma write_error_store o k : key_value_store o = true -> write_error o k = None.
Proof.
  unfold key_value_store. intros [Hext Hdata%bool_decide_eq_true]%andb_true_iff.
  unfold write_error. rewrite Hext.
  destruct (props o !! k) as [s|] eqn:Hs; [|done].
  apply Hdata in Hs. destruct s; done.
Qed.

Lemma key_value_store_with_prop o k v :
  key_value_store o = true -> key_value_store (with_prop o k v) = true.
Proof.
  unfold key_value_store. intros [Hext Hdata%bool_decide_eq_true]%andb_true_iff.
  apply andb_true_iff. split; [exact Hext|]. apply bool_decide_eq_true.
  simpl. apply map_Forall_insert_2; done.
Qed.

Lemma put_store w l o k v :
  heap w !! l = Some o -> key_value_store o = true ->
  put (VRef l) k v w = Return tt (update l (with_prop o k v) w).
Proof. intros Hl Hs. now rewrite (put_ref w l o), write_error_store. Qed.

(** * The constructor *)

Lemma put_evented_on_bag w options :
  options_bag w options = true ->
  exists w1, put options "evented" (VBool true) w = Return tt w1 /\
             get w1 options "evented" = VBool true.
Proof.
  unfold options_bag. destruct options as [| | | | |l]; try discriminate.
  destruct (heap w !! l) as [o|] eqn:Hl; [cbn [from_option]|discriminate].
  intros Hstore.
  exists (update l (with_prop o "evented" (VBool true)) w).
  split; [now apply put_store|].
  rewrite (get_ref _ l (with_prop o "evented" (VBool true))) by apply heap_update.
  apply prop_of_with_prop.
Qed.

(** C5. Constructing the engine on an options bag writes
    [options.evented = true] whatever [evented] was before (false, absent or
    anything else); the write comes first, so the base constructor already
    runs in a world where [options.evented] is [true], and, the base
    constructor leaving the caller's flag alone, it is still [true] once
    construction has returned. *)
Theorem constructor_forces_evented C player options w :
  options_bag w options = true ->
  leaves_evented_alone C ->
  exists w1,
    put options "evented" (VBool true) w = Return tt w1 /\
    get w1 options "evented" = VBool true /\
    constructor C player options w = C player options w1 /\
    forall w2, constructor C player options w = Return tt w2 ->
               get w2 options "evented" = VBool true.
Proof.
  intros Hbag HC.
  destruct (put_evented_on_bag w options Hbag) as (w1 & Hput & Hget).
  exists w1. split; [exact Hput|]. split; [exact Hget|].
  assert (Hrun : constructor C player options w = C player options w1).
  { unfold constructor, bind. now rewrite Hput. }
  split; [exact Hrun|].
  intros w2 Hret. rewrite Hrun in Hret.
  rewrite (HC _ _ _ _ Hret). exact Hget.
Qed.

Lemma Component_merge_leaves_evented_alone : leaves_evented_alone Component_merge.
Proof.
  intros player options w w' H. unfold Component_merge, bind, alloc, ret in H.
  injection H as <-. destruct options as [| | | | |l]; try reflexivity.
  unfold get, set_heap. cbn [heap].
  destruct (decide (l = fresh (dom (heap w)))) as [->|Hne].
  - rewrite lookup_insert_eq, !fresh_loc_unused. reflexivity.
  - now rewrite lookup_insert_ne by congruence.
Qed.

Lemma constructor_forces_evented_witness :
  options_bag sample_world (VRef 4) = true /\
  get sample_world (VRef 4) "evented" = VBool false /\
  exists w1,
    put (VRef 4) "evented" (VBool true) sample_world = Return tt w1 /\
    get w1 (VRef 4) "evented" = VBool true /\
    constructor Component_merge VNull (VRef 4) sample_world
      = Component_merge VNull (VRef 4) w1 /\
    forall w2, constructor Component_merge VNull (VRef 4) sample_world = Return tt w2 ->
               get w2 (VRef 4) "evented" = VBool true.
Proof.
  split; [by_evaluation|]. split; [by_evaluation|].
  apply constructor_forces_evented.
  - by_evaluation.
  - exact Component_merge_leaves_evented_alone.
Defined.

(** C10. With [undefined] or [null] for options the constructor throws a
    [TypeError] at its first statement: nothing is defaulted, the world is
    as it was, and the base constructor has no part in the outcome. *)
Theorem constructor_rejects_missing_options C player options w :
  options = VUndefined \/ options = VNull ->
  exists msg, constructor C player options w = Raise (Exn TypeError msg) w.
Proof.
  intros [-> | ->]; eexists; reflexivity.
Qed.

Lemma constructor_rejects_missing_options_witness :
  (VUndefined = VUndefined \/ VUndefined = VNull) /\
  exists msg, constructor Component_merge VNull VUndefined sample_world
              = Raise (Exn TypeError msg) sample_world.
Proof.
  split; [left; reflexivity|].
  apply constructor_rejects_missing_options. left; reflexivity.
Defined.

(** * dispose *)

(** C7. With no recorded data ([recordedData] is [undefined]) [dispose]
    returns normally and leaves the whole world as it was: no URL is
    revoked, nothing is logged, nothing is thrown. *)
Theorem dispose_without_recording w :
  recordedData w = VUndefined -> dispose w = Return tt w.
Proof.
  intros H. unfold dispose, bind, this_recordedData. rewrite H. reflexivity.
Qed.

Lemma dispose_without_recording_witness :
  recordedData sample_world = VUndefined /\
  dispose sample_world = Return tt sample_world.
Proof.
  split; [reflexivity|]. apply dispose_without_recording. reflexivity.
Defined.

(** * addFileInfo *)

(** C6. An input that is neither a [Blob] nor a [File] is left alone:
    [addFileInfo] returns normally in the very world it was called in, so
    no [lastModified], [lastModifiedDate] or [name] is written anywhere. *)
Theorem addFileInfo_ignores_other_input w fileObj :
  instanceof_Blob w fileObj = false ->
  instanceof_File w fileObj = false ->
  addFileInfo fileObj w = Return tt w.
Proof.
  intros HB HF. unfold addFileInfo. rewrite HB, HF. reflexivity.
Qed.

Lemma addFileInfo_ignores_other_input_witness :
  instanceof_Blob sample_world (VRef 4) = false /\
  instanceof_File sample_world (VRef 4) = false /\
  addFileInfo (VRef 4) sample_world = Return tt sample_world.
Proof.
  split; [by_evaluation|]. split; [by_evaluation|].
  apply addFileInfo_ignores_other_input; by_evaluation.
Defined.

Lemma addFileInfo_assigns_name w l o T :
  heap w !! l = Some o -> blob_type (class o) = Some T ->
  escaping (times_error o) = None -> name_error o = None ->
  assigns_name w (VRef l) (guess_extension T).
Proof.
  intros Hl HT Ht Hn.
  destruct (addFileInfo_outcome w l o T Hl HT)
    as (w' & o' & Hrun & Hl' & _ & _ & _ & _ & Hname & _).
  rewrite Ht, Hn in Hrun. exists w'. split; [exact Hrun|].
  rewrite (get_ref w' l o' _ Hl'). now apply Hname.
Qed.

(** C2 (as amended). For a blob or file of MIME type "audio/ogg" whose
    [lastModified] and [name] accept the assignment, and whose
    [lastModifiedDate] raises nothing but a [TypeError], [addFileInfo]
    returns with [lastModified] set to the time read by [new Date()] and
    [name] set to that same time followed by ".ogg". *)
Theorem addFileInfo_names_ogg w l o :
  heap w !! l = Some o ->
  blob_type (class o) = Some "audio/ogg" ->
  write_error o "lastModified" = None ->
  escaping (write_error o "lastModifiedDate") = None ->
  write_error o "name" = None ->
  exists w',
    addFileInfo (VRef l) w = Return tt w' /\
    get w' (VRef l) "lastModified" = VNum (clock w) /\
    get w' (VRef l) "name" = VStr (Number_toString (clock w) ++ ".ogg").
Proof.
  intros Hl HT Hlm Hlmd Hn.
  destruct (addFileInfo_outcome w l o _ Hl HT)
    as (w' & o' & Hrun & Hl' & _ & _ & _ & _ & Hname & _ & Hstamp).
  assert (Ht : escaping (times_error o) = None).
  { unfold times_error. now rewrite Hlm. }
  rewrite Ht in Hrun. unfold name_error in *. rewrite Hn in Hrun.
  exists w'. split; [exact Hrun|].
  rewrite !(get_ref w' l o' _ Hl'). split; [now apply Hstamp|].
  now apply Hname.
Qed.

Lemma addFileInfo_names_ogg_witness :
  heap sample_world !! 1%positive = Some blob_ogg /\
  blob_type (class blob_ogg) = Some "audio/ogg" /\
  write_error blob_ogg "lastModified" = None /\
  escaping (write_error blob_ogg "lastModifiedDate") = None /\
  write_error blob_ogg "name" = None /\
  exists w',
    addFileInfo (VRef 1) sample_world = Return tt w' /\
    get w' (VRef 1) "lastModified" = VNum 1451180941326 /\
    get w' (VRef 1) "name" = VStr ("1451180941326" ++ ".ogg").
Proof.
  do 5 (split; [by_evaluation|]).
  apply (addFileInfo_names_ogg sample_world 1%positive blob_ogg); by_evaluation.
Defined.

(** C2 (as worded) fails on a [File]: its [name] and [lastModified] are
    getter-only, both writes raise a [TypeError] that is swallowed, and the
    file keeps the name it had. *)
Lemma file_name_not_stamped :
  heap sample_world !! 2%positive = Some file_ogg /\
  instanceof_File sample_world (VRef 2) = true /\
  blob_type (class file_ogg) = Some "audio/ogg" /\
  addFileInfo (VRef 2) sample_world
    = Return tt (final_world (addFileInfo (VRef 2) sample_world)) /\
  get (final_world (addFileInfo (VRef 2) sample_world)) (VRef 2) "name"
    = VStr "take.ogg" /\
  ~ stamps_ogg_name sample_world (VRef 2).
Proof.
  do 5 (split; [by_evaluation|]).
  intros (w' & t & Hrun & Hstamp & Hname).
  assert (Hw : w' = final_world (addFileInfo (VRef 2) sample_world))
    by now rewrite Hrun.
  subst w'. vm_compute in Hstamp. injection Hstamp as <-.
  vm_compute in Hname. discriminate Hname.
Qed.

(** C3. For a blob or file of MIME type "video/webm;codecs=vp9,opus" the
    extension [addFileInfo] derives is "webm" behind its dot (the codec
    parameters from the first ';' on are dropped), and that is what follows
    the timestamp in the name it assigns. *)
Theorem addFileInfo_webm_codecs w l o :
  heap w !! l = Some o ->
  blob_type (class o) = Some "video/webm;codecs=vp9,opus" ->
  guess_extension "video/webm;codecs=vp9,opus" = "." ++ "webm" /\
  (escaping (times_error o) = None -> name_error o = None ->
   assigns_name w (VRef l) ("." ++ "webm")).
Proof.
  intros Hl HT. split; [reflexivity|]. intros Ht Hn.
  exact (addFileInfo_assigns_name w l o _ Hl HT Ht Hn).
Qed.

Lemma addFileInfo_webm_codecs_witness :
  heap sample_world !! 5%positive = Some blob_webm /\
  blob_type (class blob_webm) = Some "video/webm;codecs=vp9,opus" /\
  assigns_name sample_world (VRef 5) ".webm".
Proof.
  do 2 (split; [by_evaluation|]).
  apply (addFileInfo_webm_codecs sample_world 5%positive blob_webm);
    by_evaluation.
Defined.

(** C4 (as amended). A MIME type whose subtype is empty (nothing between
    the '/' and the end or the first ';') gives the lone dot, hence the name
    "<timestamp>."; a MIME type without any '/' gives ".undefined", hence
    the name "<timestamp>.undefined". *)
Theorem addFileInfo_degenerate_extension w l o T :
  heap w !! l = Some o ->
  blob_type (class o) = Some T ->
  (empty_subtype T -> degenerate_dot T) /\
  (no_slash T = true -> guess_extension T = ".undefined") /\
  (escaping (times_error o) = None -> name_error o = None ->
   (empty_subtype T -> assigns_name w (VRef l) ".") /\
   (no_slash T = true -> assigns_name w (VRef l) ".undefined")).
Proof.
  intros Hl HT.
  assert (Hempty : empty_subtype T -> guess_extension T = ".").
  { intros (major & tail & -> & Hmajor & Htail).
    apply (guess_extension_subtype major "" tail Hmajor); done. }
  assert (Hnone : no_slash T = true -> guess_extension T = ".undefined").
  { intros H%bool_decide_eq_true. now apply guess_extension_no_slash. }
  split; [exact Hempty|]. split; [exact Hnone|].
  intros Ht Hn.
  pose proof (addFileInfo_assigns_name w l o T Hl HT Ht Hn) as Hname.
  split; intros H.
  - now rewrite <- (Hempty H).
  - now rewrite <- (Hnone H).
Qed.

Lemma addFileInfo_degenerate_extension_witness :
  heap sample_world !! 6%positive = Some blob_untyped /\
  blob_type (class blob_untyped) = Some "" /\
  no_slash "" = true /\
  assigns_name sample_world (VRef 6) ".undefined".
Proof.
  do 3 (split; [by_evaluation|]).
  destruct (addFileInfo_degenerate_extension sample_world 6%positive blob_untyped "")
    as (_ & _ & H); [by_evaluation ..|].
  apply H; by_evaluation.
Defined.

(** C4 (as worded) fails on a MIME type without '/', such as the empty type
    of a blob built without one: the extension is ".undefined", not ".". *)
Lemma untyped_blob_extension :
  no_slash "" = true /\
  guess_extension "" = ".undefined" /\
  ~ degenerate_dot "" /\
  get (final_world (addFileInfo (VRef 6) sample_world)) (VRef 6) "name"
    = VStr "1451180941326.undefined".
Proof.
  split; [by_evaluation|]. split; [reflexivity|].
  split; [unfold degenerate_dot; vm_compute; discriminate|].
  by_evaluation.
Qed.

(** C8. On a blob or file, a [TypeError] raised while assigning
    [lastModified]/[lastModifiedDate] or [name] is swallowed and execution
    goes on (after a swallowed error of the first block the name is still
    assigned; with nothing but [TypeError]s the call returns), whereas an
    error of any other class raised in either block reaches the caller as
    the very same error; no [TypeError] of these assignments ever does. *)
Theorem addFileInfo_error_handling w l o T :
  heap w !! l = Some o ->
  blob_type (class o) = Some T ->
  (forall e, times_error o = Some e -> instanceof_TypeError e = true ->
             name_error o = None ->
             assigns_name w (VRef l) (guess_extension T)) /\
  (escaping (times_error o) = None -> escaping (name_error o) = None ->
   exists w', addFileInfo (VRef l) w = Return tt w') /\
  (forall e, times_error o = Some e -> instanceof_TypeError e = false ->
             exists w', addFileInfo (VRef l) w = Raise e w') /\
  (forall e, escaping (times_error o) = None -> name_error o = Some e ->
             instanceof_TypeError e = false ->
             exists w', addFileInfo (VRef l) w = Raise e w') /\
  (forall e w', addFileInfo (VRef l) w = Raise e w' ->
                instanceof_TypeError e = false /\
                (times_error o = Some e \/ name_error o = Some e)).
Proof.
  intros Hl HT.
  destruct (addFileInfo_outcome w l o T Hl HT) as (w1 & o1 & Hrun & _).
  split; [|split; [|split; [|split]]].
  - intros e He Hty Hn. apply (addFileInfo_assigns_name w l o T Hl HT); [|done].
    rewrite He. simpl. now rewrite Hty.
  - intros Ht Hn. rewrite Ht, Hn in Hrun. now exists w1.
  - intros e He Hty. rewrite He in Hrun. simpl in Hrun. rewrite Hty in Hrun.
    now exists w1.
  - intros e Ht He Hty. rewrite Ht, He in Hrun. simpl in Hrun.
    rewrite Hty in Hrun. now exists w1.
  - intros e w' Hraise. rewrite Hrun in Hraise. unfold escaping in Hraise.
    destruct (times_error o) as [e1|]; [destruct (instanceof_TypeError e1) eqn:E1|].
    2: { injection Hraise as <- _. split; [exact E1|now left]. }
    all: destruct (name_error o) as [e2|]; [|discriminate Hraise];
      destruct (instanceof_TypeError e2) eqn:E2; [discriminate Hraise|];
      injection Hraise as <- _; split; [exact E2|now right].
Qed.

Lemma addFileInfo_error_handling_witness :
  heap sample_world !! 7%positive = Some file_renamable /\
  blob_type (class file_renamable) = Some "audio/ogg" /\
  (exists e, times_error file_renamable = Some e /\ instanceof_TypeError e = true) /\
  assigns_name sample_world (VRef 7) ".ogg" /\
  exists w', addFileInfo (VRef 3) sample_world = Raise (Exn RangeError "no name") w'.
Proof.
  do 2 (split; [by_evaluation|]).
  split; [eexists; split; by_evaluation|].
  split.
  - destruct (addFileInfo_error_handling sample_world 7%positive file_renamable "audio/ogg")
      as (H & _); [by_evaluation ..|].
    eapply H; by_evaluation.
  - destruct (addFileInfo_error_handling sample_world 3%positive blob_guarded "audio/ogg")
      as (_ & _ & _ & H & _); [by_evaluation ..|].
    apply H; by_evaluation.
Defined.

(** * onStopRecording *)

Lemma ToString_class w w' v :
  class_of w' v = class_of w v -> ToString w' v = ToString w v.
Proof. intros H. destruct v; try reflexivity. unfold ToString. now rewrite H. Qed.

Lemma dispose_revokes w :
  recordedData w <> VUndefined ->
  exists w',
    dispose w = Return tt w' /\
    heap w' = heap w /\
    recordedData w' = recordedData w /\
    trace w' = (trace w ++ [EvRevokeObjectURL (ToString w (recordedData w))])%list.
Proof.
  intros H. unfold dispose, bind, this_recordedData.
  rewrite bool_decide_eq_true_2 by exact H.
  eexists. split; [reflexivity|]. repeat split.
Qed.

Lemma occurrences_recordComplete url :
  occurrences (EvTrigger "recordComplete")
    [EvRevokeObjectURL url; EvTrigger "recordComplete"] = 1%nat.
Proof.
  unfold occurrences. rewrite filter_cons_False by discriminate.
  rewrite filter_cons_True by reflexivity. reflexivity.
Qed.

(** C1 (as amended). For a blob whose property writes raise nothing but
    [TypeError]s, [onStopRecording] stores the blob in [recordedData], then
    runs [addFileInfo] on it, then [dispose] (which revokes), then triggers
    [recordComplete], once, and returns nothing.  When [addFileInfo]
    re-raises an error, that error leaves [onStopRecording]: the blob is
    stored, but nothing is revoked and no event is triggered. *)
Theorem onStopRecording_in_order w l o T :
  heap w !! l = Some o ->
  blob_type (class o) = Some T ->
  (escaping (times_error o) = None -> escaping (name_error o) = None ->
   completes_recording w (VRef l) /\
   exists w', onStopRecording (VRef l) w = Return tt w' /\
              trace w' = (trace w ++ [EvRevokeObjectURL (ToString w (VRef l));
                                      EvTrigger "recordComplete"])%list) /\
  (forall e,
     escaping (times_error o) = Some e \/
     (escaping (times_error o) = None /\ escaping (name_error o) = Some e) ->
     exists w', onStopRecording (VRef l) w = Raise e w' /\
                recordedData w' = VRef l /\
                trace w' = trace w).
Proof.
  intros Hl HT.
  set (w1 := set_recordedData (VRef l) w).
  assert (Hl1 : heap w1 !! l = Some o) by exact Hl.
  destruct (addFileInfo_outcome w1 l o T Hl1 HT)
    as (w2 & o2 & Hrun & Hl2 & Hc2 & Hrd2 & Htr2 & _).
  assert (Hstart : onStopRecording (VRef l) w
                   = bind (addFileInfo (VRef l))
                          (fun _ => bind dispose (fun _ => trigger "recordComplete")) w1)
    by reflexivity.
  split.
  - intros Ht Hn. rewrite Ht, Hn in Hrun.
    assert (Hrd : recordedData w2 <> VUndefined) by (rewrite Hrd2; discriminate).
    destruct (dispose_revokes w2 Hrd) as (w3 & Hdis & Hh3 & Hrd3 & Htr3).
    assert (Hstr : ToString w2 (recordedData w2) = ToString w (VRef l)).
    { rewrite Hrd2. apply ToString_class. unfold class_of.
      rewrite Hl2. change (heap w1 !! l) with (heap w !! l). rewrite Hl.
      simpl. now rewrite Hc2. }
    assert (Hfin : onStopRecording (VRef l) w
                   = Return tt (log (EvTrigger "recordComplete") w3)).
    { rewrite Hstart. unfold bind. rewrite Hrun, Hdis. reflexivity. }
    assert (Htr : trace (log (EvTrigger "recordComplete") w3)
                  = (trace w ++ [EvRevokeObjectURL (ToString w (VRef l));
                                 EvTrigger "recordComplete"])%list).
    { simpl. rewrite Htr3, Htr2, Hstr, <- app_assoc. reflexivity. }
    split.
    + exists w1, w2, w3, (log (EvTrigger "recordComplete") w3).
      repeat split; try assumption.
      * simpl. now rewrite Hrd3, Hrd2.
      * unfold new_events. rewrite Htr, drop_app_length.
        apply occurrences_recordComplete.
    + eexists. split; [exact Hfin|exact Htr].
  - intros e He. exists w2.
    assert (Hraise : addFileInfo (VRef l) w1 = Raise e w2).
    { destruct He as [He | [He1 He2]]; rewrite Hrun.
      - now rewrite He.
      - now rewrite He1, He2. }
    split; [|split; assumption].
    rewrite Hstart. unfold bind. now rewrite Hraise.
Qed.

Lemma onStopRecording_in_order_witness :
  heap sample_world !! 1%positive = Some blob_ogg /\
  blob_type (class blob_ogg) = Some "audio/ogg" /\
  escaping (times_error blob_ogg) = None /\
  escaping (name_error blob_ogg) = None /\
  completes_recording sample_world (VRef 1) /\
  exists w', onStopRecording (VRef 1) sample_world = Return tt w' /\
             trace w' = [EvRevokeObjectURL "[object Blob]";
                         EvTrigger "recordComplete"].
Proof.
  do 4 (split; [by_evaluation|]).
  destruct (onStopRecording_in_order sample_world 1%positive blob_ogg "audio/ogg")
    as (H & _); [by_evaluation ..|].
  apply H; by_evaluation.
Defined.

(** C1 (as worded) fails on a blob whose [name] setter raises an error that
    is not a [TypeError]: [addFileInfo] re-raises it, and [onStopRecording]
    ends there, with the blob stored but without [dispose] and without the
    [recordComplete] event. *)
Lemma guarded_blob_not_completed :
  instanceof_Blob sample_world (VRef 3) = true /\
  (exists w', onStopRecording (VRef 3) sample_world
              = Raise (Exn RangeError "no name") w' /\
              recordedData w' = VRef 3 /\
              trace w' = []) /\
  ~ completes_recording sample_world (VRef 3).
Proof.
  split; [by_evaluation|]. split.
  - exists (final_world (onStopRecording (VRef 3) sample_world)).
    repeat split; by_evaluation.
  - intros (w1 & w2 & w3 & w4 & _ & _ & _ & _ & _ & Hrun & _).
    vm_compute in Hrun. discriminate Hrun.
Qed.

(** * saveAs *)

Lemma member_first key v rest :
  member ((key, v) :: rest) (head (Object_keys ((key, v) :: rest))) = v.
Proof.
  unfold member, Object_keys. cbn [fmap list_fmap head fst default from_option id list_find].
  cbn [fst]. rewrite bool_decide_eq_true_2 by reflexivity. reflexivity.
Qed.

Lemma bind_return {A B} (m : M A) (f : A -> M B) w a w' :
  m w = Return a w' -> bind m f w = f a w'.
Proof. intros H. unfold bind. now rewrite H. Qed.

Lemma instanceof_Blob_update w l o v :
  heap w !! l = None ->
  instanceof_Blob w v = true -> instanceof_Blob (update l o w) v = true.
Proof.
  intros Hl. unfold instanceof_Blob, class_of. destruct v as [| | | | |l']; try done.
  destruct (decide (l = l')) as [<-|Hne].
  - now rewrite Hl.
  - now rewrite heap_update_ne.
Qed.

Lemma saveAs_anchor p name data w key fileName rest :
  name = (key, VStr fileName) :: rest ->
  instanceof_Blob w data = true ->
  msSaveOrOpenBlob p = None -> msSaveBlob p = None ->
  let a := fresh (dom (heap w)) in
  let url := "blob:" ++ pretty (url_counter w) in
  exists w',
    saveAs p name data w = Return VUndefined w' /\
    trace w' = (trace w ++
                [EvCreateElement "a" a; EvCreateObjectURL data url;
                 EvAppendChild (has_body p) a;
                 if has_click p then EvClick a else EvDispatchClick a;
                 EvRevokeObjectURL url])%list /\
    class_of w' (VRef a) = Some Anchor /\
    get w' (VRef a) "download" = VStr fileName /\
    get w' (VRef a) "href" = VStr url /\
    object_urls w' = ({[ url ]} ∪ object_urls w) ∖ {[ url ]}.
Proof.
  intros -> Hblob Hs1 Hs2 a url.
  assert (Hdata : data <> VUndefined) by (intros ->; discriminate).
  unfold saveAs. rewrite bool_decide_eq_false_2 by exact Hdata.
  rewrite member_first, Hs1, Hs2.
  rewrite (bind_return (ret data) _ w data w) by reflexivity.
  (* document.createElement('a') *)
  set (o0 := Object Anchor true
               (<["href" := Data (VStr "")]>
                (<["download" := Data (VStr "")]>
                 (<["target" := Data (VStr "")]> ∅)))).
  assert (Hk0 : key_value_store o0 = true) by (by_evaluation).
  set (w1 := log (EvCreateElement "a" a) (update a o0 w)).
  rewrite (bind_return (document_createElement "a") _ w a w1) by reflexivity.
  (* URL.createObjectURL(data) *)
  set (w2 := World (heap w1) (recordedData w1) (clock w1)
                   ({[ url ]} ∪ object_urls w1) (N.succ (url_counter w1))
                   (trace w1 ++ [EvCreateObjectURL data url])).
  assert (H2 : URL_createObjectURL data w1 = Return url w2).
  { unfold URL_createObjectURL.
    assert (instanceof_Blob w1 data = true) as ->; [|reflexivity].
    apply (instanceof_Blob_update w a o0 data (fresh_loc_unused w) Hblob). }
  rewrite (bind_return _ _ w1 url w2 H2).
  (* hyperlink.href, hyperlink.download, hyperlink.style *)
  set (o1 := with_prop o0 "href" (VStr url)).
  set (o2 := with_prop o1 "download" (VStr fileName)).
  set (o3 := with_prop o2 "style" (VStr "display:none;opacity:0;color:transparent;")).
  assert (Hk1 : key_value_store o1 = true) by now apply key_value_store_with_prop.
  assert (Hk2 : key_value_store o2 = true) by now apply key_value_store_with_prop.
  assert (Hk3 : key_value_store o3 = true) by now apply key_value_store_with_prop.
  assert (Hl2 : heap w2 !! a = Some o0) by apply heap_update.
  rewrite (bind_return _ _ w2 tt (update a o1 w2) (put_store w2 a o0 _ _ Hl2 Hk0)).
  rewrite (bind_return _ _ (update a o1 w2) tt (update a o2 (update a o1 w2)))
    by (apply (put_store _ a o1); [apply heap_update|exact Hk1]).
  rewrite update_update.
  rewrite (bind_return _ _ (update a o2 w2) tt (update a o3 (update a o2 w2)))
    by (apply (put_store _ a o2); [apply heap_update|exact Hk2]).
  rewrite update_update.
  (* appendChild *)
  set (w4 := log (EvAppendChild (has_body p) a) (update a o3 w2)).
  rewrite (bind_return _ _ (update a o3 w2) tt w4) by reflexivity.
  (* click, then revoke *)
  set (o5 := if has_click p then o3 else with_prop o3 "target" (VStr "_blank")).
  set (w5 := log (if has_click p then EvClick a else EvDispatchClick a)
                 (update a o5 w4)).
  assert (H5 : (if has_click p then host (EvClick a)
                else bind (put (VRef a) "target" (VStr "_blank"))
                          (fun _ => host (EvDispatchClick a))) w4
               = Return tt w5).
  { unfold w5, o5. destruct (has_click p).
    - unfold host. rewrite update_id; [reflexivity|apply heap_update].
    - rewrite (bind_return _ _ w4 tt (update a (with_prop o3 "target" (VStr "_blank")) w4));
        [reflexivity|].
      apply (put_store _ a o3); [apply heap_update|exact Hk3]. }
  rewrite (bind_return _ _ w4 tt w5 H5).
  assert (Hl5 : heap w5 !! a = Some o5) by apply heap_update.
  assert (Hhref : prop_of o5 "href" = VStr url).
  { unfold o5. destruct (has_click p);
      rewrite ?(prop_of_with_prop_ne _ "target") by done;
      unfold o3, o2; rewrite !prop_of_with_prop_ne by done; apply prop_of_with_prop. }
  assert (Hdl : prop_of o5 "download" = VStr fileName).
  { unfold o5. destruct (has_click p);
      rewrite ?(prop_of_with_prop_ne _ "target") by done;
      unfold o3; rewrite prop_of_with_prop_ne by done; apply prop_of_with_prop. }
  set (w6 := World (heap w5) (recordedData w5) (clock w5)
                   (object_urls w5 ∖ {[ url ]}) (url_counter w5)
                   (trace w5 ++ [EvRevokeObjectURL url])).
  assert (H6 : URL_revokeObjectURL (get w5 (VRef a) "href") w5 = Return tt w6).
  { rewrite (get_ref w5 a o5 _ Hl5), Hhref. reflexivity. }
  rewrite (bind_return (fun w => URL_revokeObjectURL (get w (VRef a) "href") w)
             _ w5 tt w6 H6).
  exists w6. split; [reflexivity|].
  split; [simpl; rewrite <- !app_assoc; reflexivity|].
  split; [unfold class_of; change (heap w6) with (heap w5); rewrite Hl5;
          unfold o5; now destruct (has_click p)|].
  split; [rewrite (get_ref w6 a o5 _ Hl5); exact Hdl|].
  split; [rewrite (get_ref w6 a o5 _ Hl5); exact Hhref|].
  reflexivity.
Qed.

(** C9. [saveAs(nameMap, blob)], the first value of [nameMap] being the
    string [fileName].  Without [msSaveOrOpenBlob] and [msSaveBlob] the call
    makes one anchor element, a new one, gives it [fileName] as [download]
    and, as [href], the object URL it has just had created for the blob
    (not the empty string), appends and clicks it, revokes that URL, which
    is no longer live when the call returns, and returns nothing.  With a
    legacy save function ([msSaveOrOpenBlob] first, else [msSaveBlob]) the
    call is that function applied to the blob and [fileName]: its value or
    its error is the result and no element is made. *)
Theorem saveAs_downloads p name data w key fileName rest :
  name = (key, VStr fileName) :: rest ->
  instanceof_Blob w data = true ->
  match msSaveOrOpenBlob p, msSaveBlob p with
  | Some save, _ =>
      let w' := log (EvMsSaveOrOpenBlob data (VStr fileName)) w in
      saveAs p name data w =
        match save data (VStr fileName) with
        | inr v => Return v w'
        | inl e => Raise e w'
        end /\
      heap w' = heap w /\ created_elements (new_events w w') = []
  | None, Some save =>
      let w' := log (EvMsSaveBlob data (VStr fileName)) w in
      saveAs p name data w =
        match save data (VStr fileName) with
        | inr v => Return v w'
        | inl e => Raise e w'
        end /\
      heap w' = heap w /\ created_elements (new_events w w') = []
  | None, None =>
      exists a url w',
        saveAs p name data w = Return VUndefined w' /\
        heap w !! a = None /\
        class_of w' (VRef a) = Some Anchor /\
        created_elements (new_events w w') = [a] /\
        new_events w w' =
          [EvCreateElement "a" a; EvCreateObjectURL data url;
           EvAppendChild (has_body p) a;
           if has_click p then EvClick a else EvDispatchClick a;
           EvRevokeObjectURL url] /\
        get w' (VRef a) "download" = VStr fileName /\
        get w' (VRef a) "href" = VStr url /\
        url <> "" /\
        url ∉ object_urls w'
  end.
Proof.
  intros Hname Hblob.
  assert (Hdata : data <> VUndefined) by (intros ->; discriminate).
  assert (Hlog : forall ev, created_elements (new_events w (log ev w))
                            = created_elements [ev]).
  { intros ev. unfold new_events. simpl. now rewrite drop_app_length. }
  destruct (msSaveOrOpenBlob p) as [save|] eqn:Hs1;
    [|destruct (msSaveBlob p) as [save|] eqn:Hs2].
  - cbv zeta. split; [|split; [reflexivity|apply Hlog]].
    subst name. unfold saveAs. rewrite bool_decide_eq_false_2 by exact Hdata.
    rewrite member_first, Hs1.
    rewrite (bind_return (ret data) _ w data w) by reflexivity.
    unfold host_call. now destruct (save data (VStr fileName)).
  - cbv zeta. split; [|split; [reflexivity|apply Hlog]].
    subst name. unfold saveAs. rewrite bool_decide_eq_false_2 by exact Hdata.
    rewrite member_first, Hs1, Hs2.
    rewrite (bind_return (ret data) _ w data w) by reflexivity.
    unfold host_call. now destruct (save data (VStr fileName)).
  - destruct (saveAs_anchor p name data w key fileName rest Hname Hblob Hs1 Hs2)
      as (w' & Hrun & Htr & Hcls & Hdl & Hhref & Hurls).
    exists (fresh (dom (heap w))), ("blob:" ++ pretty (url_counter w)), w'.
    assert (Hnew : new_events w w' =
      [EvCreateElement "a" (fresh (dom (heap w)));
       EvCreateObjectURL data ("blob:" ++ pretty (url_counter w));
       EvAppendChild (has_body p) (fresh (dom (heap w)));
       if has_click p then EvClick (fresh (dom (heap w)))
       else EvDispatchClick (fresh (dom (heap w)));
       EvRevokeObjectURL ("blob:" ++ pretty (url_counter w))]).
    { unfold new_events. now rewrite Htr, drop_app_length. }
    split; [exact Hrun|]. split; [apply fresh_loc_unused|].
    split; [exact Hcls|].
    split; [rewrite Hnew; now destruct (has_click p)|].
    split; [exact Hnew|]. split; [exact Hdl|]. split; [exact Hhref|].
    split; [discriminate|]. rewrite Hurls.
    apply not_elem_of_difference. right. now apply elem_of_singleton.
Qed.

Lemma saveAs_downloads_witness :
  instanceof_Blob sample_world (VRef 1) = true /\
  exists a url w',
    saveAs no_legacy_save [("video", VStr "clip")] (VRef 1) sample_world
      = Return VUndefined w' /\
    created_elements (new_events sample_world w') = [a] /\
    get w' (VRef a) "download" = VStr "clip" /\
    get w' (VRef a) "href" = VStr url /\
    url <> "" /\
    url ∉ object_urls w'.
Proof.
  split; [by_evaluation|].
  destruct (saveAs_downloads no_legacy_save [("video", VStr "clip")] (VRef 1)
              sample_world "video" "clip" [])
    as (a & url & w' & Hrun & _ & _ & Hone & _ & Hdl & Hhref & Hurl & Hrev);
    [reflexivity | by_evaluation |].
  exists a, url, w'. repeat split; assumption.
Defined.

(** With a legacy save function the file goes to it and its answer comes
    back. *)
Example saveAs_legacy :
  saveAs legacy_save [("video", VStr "clip")] (VRef 1) sample_world
  = Return (VBool true)
      (log (EvMsSaveOrOpenBlob (VRef 1) (VStr "clip")) sample_world).
Proof. reflexivity. Qed.

(** Leaving out [data] saves the recorded data. *)
Lemma saveAs_default_data p name w :
  saveAs p name VUndefined w = saveAs p name (recordedData w) w.
Proof.
  unfold saveAs. rewrite bool_decide_eq_true_2 by reflexivity.
  rewrite (bind_return this_recordedData _ w (recordedData w) w) by reflexivity.
  destruct (decide (recordedData w = VUndefined)) as [Hrd|Hrd].
  - rewrite bool_decide_eq_true_2 by exact Hrd.
    now rewrite (bind_return this_recordedData _ w (recordedData w) w).
  - rewrite bool_decide_eq_false_2 by exact Hrd.
    now rewrite (bind_return (ret (recordedData w)) _ w (recordedData w) w).
Qed.

(** * Further properties of the extension guess *)

Lemma split_fst_absent c s : indexOf c (split c s).1 = -1.
Proof.
  induction s as [|a s IH]; [reflexivity|].
  simpl. destruct (split c s) as [x xs]. simpl in IH.
  destruct (Ascii.eqb a c) eqn:E; [reflexivity|].
  simpl. now rewrite E, IH.
Qed.

Lemma split_snd_absent c s : Forall (fun part => indexOf c part = -1) (split c s).2.
Proof.
  induction s as [|a s IH]; [constructor|].
  pose proof (split_fst_absent c s) as Hfst.
  simpl. destruct (split c s) as [x xs]. simpl in IH, Hfst.
  destruct (Ascii.eqb a c); simpl; [now constructor|exact IH].
Qed.

Lemma indexOf_cons_absent_intro c a s :
  Ascii.eqb a c = false -> indexOf c s = -1 -> indexOf c (String a s) = -1.
Proof. intros Ha Hs. simpl. now rewrite Ha, Hs. Qed.

Lemma split_fst_other c c' s : indexOf c' s = -1 -> indexOf c' (split c s).1 = -1.
Proof.
  induction s as [|a s IH]; [reflexivity|].
  intros [Ha Hs]%indexOf_cons_absent. specialize (IH Hs).
  simpl. destruct (split c s) as [x xs]. simpl in IH.
  destruct (Ascii.eqb a c); [reflexivity|].
  now apply indexOf_cons_absent_intro.
Qed.

Lemma split_fst_cons c a s :
  Ascii.eqb a c = false -> (split c (String a s)).1 = String a (split c s).1.
Proof. intros Ha. simpl. destruct (split c s). now rewrite Ha. Qed.

Lemma at1_absent c s x : at1 (split c s) = Some x -> indexOf c x = -1.
Proof.
  unfold at1. intros H. pose proof (split_snd_absent c s) as Hall.
  destruct (split c s).2 as [|y ys]; [discriminate|].
  injection H as <-. now inversion Hall.
Qed.

(** X2. Whatever the MIME type, the extension guessed starts with a dot
    and contains neither a ';' nor a '/'. *)
Theorem guess_extension_shape type :
  (exists rest, guess_extension type = String "." rest) /\
  indexOf ";" (guess_extension type) = -1 /\
  indexOf "/" (guess_extension type) = -1.
Proof.
  unfold guess_extension.
  set (sub := default "undefined" (at1 (split "/" type))).
  assert (Hsub : indexOf "/" sub = -1).
  { unfold sub. destruct (at1 (split "/" type)) as [x|] eqn:E; [|reflexivity].
    exact (at1_absent _ _ _ E). }
  assert (Hext : concat_opt "." (at1 (split "/" type)) = String "." sub) by reflexivity.
  rewrite Hext.
  assert (Hslash : indexOf "/" (String "." sub) = -1)
    by now apply indexOf_cons_absent_intro.
  destruct (-1 <? indexOf ";" (String "." sub)) eqn:E.
  - unfold at0. split; [|split].
    + rewrite split_fst_cons by reflexivity. now eexists.
    + apply split_fst_absent.
    + now apply split_fst_other.
  - split; [now eexists|]. split; [|exact Hslash].
    apply Z.ltb_ge in E. pose proof (indexOf_lower ";" (String "." sub)). lia.
Qed.

(** X1. For a MIME type [major/sub] or [major/sub;params], where [major]
    and [sub] contain no '/' and [sub] no ';', the extension guessed is
    [.sub]: the parameters are dropped whatever they are. *)
Theorem guess_extension_strips_parameters major sub rest :
  indexOf "/" major = -1 ->
  indexOf "/" sub = -1 ->
  indexOf ";" sub = -1 ->
  rest = "" \/ (exists params, rest = ";" ++ params) ->
  guess_extension (major ++ "/" ++ sub ++ rest) = "." ++ sub.
Proof. exact (guess_extension_subtype major sub rest). Qed.

Lemma guess_extension_strips_parameters_witness :
  indexOf "/" "video" = -1 /\
  indexOf "/" "x-matroska" = -1 /\
  indexOf ";" "x-matroska" = -1 /\
  guess_extension ("video" ++ "/" ++ "x-matroska" ++ ";codecs=avc1/x;y")
  = "." ++ "x-matroska".
Proof.
  do 3 (split; [reflexivity|]).
  apply guess_extension_strips_parameters; try reflexivity.
  right. now exists "codecs=avc1/x;y".
Defined.

(** * Further properties of addFileInfo *)

Lemma addFileInfo_final w l o T :
  heap w !! l = Some o -> blob_type (class o) = Some T ->
  let d := fresh (dom (heap w)) in
  let w1 := update d (Object (Date (clock w)) true ∅) w in
  let s1 := stamp_times o (clock w) (VRef d) in
  let s2 := stamp_name s1.1 (clock w) T in
  final_world (addFileInfo (VRef l) w) =
    update l (match escaping s1.2 with Some _ => s1.1 | None => s2.1 end) w1.
Proof.
  intros Hl HT. cbv zeta. rewrite (addFileInfo_blob w l o T Hl HT). cbv zeta.
  destruct (escaping (stamp_times _ _ _).2); [reflexivity|].
  destruct (escaping (stamp_name _ _ _).2); reflexivity.
Qed.

Lemma stamp_times_other o t now k :
  k <> "lastModified" -> k <> "lastModifiedDate" ->
  prop_of (stamp_times o t now).1 k = prop_of o k.
Proof.
  intros H1 H2. unfold stamp_times.
  destruct (write_error o "lastModified"); [reflexivity|].
  destruct (write_error _ "lastModifiedDate"); cbn [fst];
    now rewrite ?prop_of_with_prop_ne by done.
Qed.

Lemma stamp_name_other o t T k :
  k <> "name" -> prop_of (stamp_name o t T).1 k = prop_of o k.
Proof.
  intros H. unfold stamp_name. destruct (write_error o "name"); cbn [fst];
    now rewrite ?prop_of_with_prop_ne by done.
Qed.

Lemma stamp_times_refused o t now e :
  write_error o "lastModified" = Some e -> (stamp_times o t now).1 = o.
Proof. intros H. unfold stamp_times. now rewrite H. Qed.

Lemma stamp_times_lastModifiedDate o t now :
  write_error o "lastModified" = None ->
  write_error o "lastModifiedDate" = None ->
  prop_of (stamp_times o t now).1 "lastModifiedDate" = now.
Proof.
  intros H1 H2. unfold stamp_times. rewrite H1.
  rewrite write_error_with_prop_ne, H2 by done. apply prop_of_with_prop.
Qed.

(** X3. [addFileInfo] on a blob or file, whether it returns or throws,
    touches the file object and nothing else that exists: the engine's
    recorded data, the log of host calls, the URL store and every other
    object stay as they were (one date object is allocated at an unused
    address); on the file object itself the class, hence the MIME type, and
    every property other than [lastModified], [lastModifiedDate] and [name]
    are unchanged. *)
Theorem addFileInfo_frame w l o T :
  heap w !! l = Some o ->
  blob_type (class o) = Some T ->
  let w' := final_world (addFileInfo (VRef l) w) in
  recordedData w' = recordedData w /\
  trace w' = trace w /\
  object_urls w' = object_urls w /\
  url_counter w' = url_counter w /\
  (forall l' o', l' <> l -> heap w !! l' = Some o' -> heap w' !! l' = Some o') /\
  dom (heap w') = {[ fresh (dom (heap w)) ]} ∪ dom (heap w) /\
  class_of w' (VRef l) = Some (class o) /\
  (forall k, k <> "lastModified" -> k <> "lastModifiedDate" -> k <> "name" ->
             get w' (VRef l) k = get w (VRef l) k).
Proof.
  intros Hl HT w'. unfold w'. rewrite (addFileInfo_final w l o T Hl HT). cbv zeta.
  set (d := fresh (dom (heap w))).
  set (s1 := stamp_times o (clock w) (VRef d)).
  set (s2 := stamp_name s1.1 (clock w) T).
  set (oF := match escaping s1.2 with Some _ => s1.1 | None => s2.1 end).
  assert (Hclass : class oF = class o).
  { unfold oF. destruct (escaping s1.2).
    - apply stamp_times_class.
    - unfold s2. rewrite stamp_name_class. apply stamp_times_class. }
  assert (Hother : forall k, k <> "lastModified" -> k <> "lastModifiedDate" ->
                             k <> "name" -> prop_of oF k = prop_of o k).
  { intros k H1 H2 H3. unfold oF. destruct (escaping s1.2).
    - now apply stamp_times_other.
    - unfold s2. rewrite stamp_name_other by done. now apply stamp_times_other. }
  do 4 (split; [reflexivity|]).
  split; [|split; [|split]].
  - intros l' o' Hne Hl'. rewrite heap_update_ne by congruence.
    rewrite heap_update_ne; [exact Hl'|].
    intros <-. unfold d in Hl'. rewrite fresh_loc_unused in Hl'. discriminate.
  - unfold update, set_heap. cbn [heap]. rewrite !dom_insert_L.
    apply subseteq_union_1_L, singleton_subseteq_l, elem_of_union_r.
    apply elem_of_dom. eauto.
  - unfold class_of. rewrite heap_update. simpl. now rewrite Hclass.
  - intros k H1 H2 H3.
    rewrite (get_ref _ l oF) by apply heap_update.
    rewrite (get_ref w l o) by exact Hl. now apply Hother.
Qed.

Lemma addFileInfo_frame_witness :
  heap sample_world !! 3%positive = Some blob_guarded /\
  blob_type (class blob_guarded) = Some "audio/ogg" /\
  trace (final_world (addFileInfo (VRef 3) sample_world)) = [] /\
  heap (final_world (addFileInfo (VRef 3) sample_world)) !! 1%positive
    = Some blob_ogg.
Proof.
  do 2 (split; [by_evaluation|]).
  destruct (addFileInfo_frame sample_world 3%positive blob_guarded "audio/ogg")
    as (_ & Htr & _ & _ & Hheap & _); [by_evaluation ..|].
  split; [exact Htr|]. apply Hheap; [discriminate|by_evaluation].
Defined.

(** X4. When the file object accepts both [lastModified] and
    [lastModifiedDate], the two name the same instant: [lastModifiedDate]
    refers to a newly allocated date whose time value is the number stored
    in [lastModified], the time [new Date()] read; this holds even if the
    later write of [name] throws. *)
Theorem addFileInfo_times_agree w l o T :
  heap w !! l = Some o ->
  blob_type (class o) = Some T ->
  write_error o "lastModified" = None ->
  write_error o "lastModifiedDate" = None ->
  let w' := final_world (addFileInfo (VRef l) w) in
  exists d,
    heap w !! d = None /\
    get w' (VRef l) "lastModifiedDate" = VRef d /\
    getTime (VRef d) w' = Return (clock w) w' /\
    get w' (VRef l) "lastModified" = VNum (clock w).
Proof.
  intros Hl HT H1 H2 w'. unfold w'. rewrite (addFileInfo_final w l o T Hl HT).
  cbv zeta. set (d := fresh (dom (heap w))).
  set (s1 := stamp_times o (clock w) (VRef d)).
  set (s2 := stamp_name s1.1 (clock w) T).
  set (oF := match escaping s1.2 with Some _ => s1.1 | None => s2.1 end).
  assert (Hdate : prop_of oF "lastModifiedDate" = VRef d).
  { unfold oF. destruct (escaping s1.2).
    - now apply stamp_times_lastModifiedDate.
    - unfold s2. rewrite stamp_name_other by done.
      now apply stamp_times_lastModifiedDate. }
  assert (Hnum : prop_of oF "lastModified" = VNum (clock w)).
  { unfold oF. destruct (escaping s1.2).
    - now apply stamp_times_lastModified.
    - unfold s2. rewrite stamp_name_other by done.
      now apply stamp_times_lastModified. }
  exists d. split; [apply fresh_loc_unused|].
  split; [rewrite (get_ref _ l oF) by apply heap_update; exact Hdate|].
  split.
  - eapply getTime_ref. rewrite heap_update_ne; [apply heap_update|].
    exact (fresh_loc_ne w l o Hl).
  - rewrite (get_ref _ l oF) by apply heap_update. exact Hnum.
Qed.

Lemma addFileInfo_times_agree_witness :
  heap sample_world !! 3%positive = Some blob_guarded /\
  blob_type (class blob_guarded) = Some "audio/ogg" /\
  write_error blob_guarded "lastModified" = None /\
  write_error blob_guarded "lastModifiedDate" = None /\
  exists d,
    get (final_world (addFileInfo (VRef 3) sample_world)) (VRef 3) "lastModifiedDate"
      = VRef d /\
    getTime (VRef d) (final_world (addFileInfo (VRef 3) sample_world))
      = Return 1451180941326 (final_world (addFileInfo (VRef 3) sample_world)) /\
    get (final_world (addFileInfo (VRef 3) sample_world)) (VRef 3) "lastModified"
      = VNum 1451180941326.
Proof.
  do 4 (split; [by_evaluation|]).
  destruct (addFileInfo_times_agree sample_world 3%positive blob_guarded "audio/ogg")
    as (d & _ & H); [by_evaluation ..|].
  exists d. exact H.
Defined.

(** X5. The two time stamps share one [try] block: when the write of
    [lastModified] throws (as on a [File], where it is getter-only), the
    write of [lastModifiedDate] is never reached, so both properties keep
    the value they had, even where [lastModifiedDate] could be written. *)
Theorem addFileInfo_skips_date_after_failure w l o T e :
  heap w !! l = Some o ->
  blob_type (class o) = Some T ->
  write_error o "lastModified" = Some e ->
  let w' := final_world (addFileInfo (VRef l) w) in
  get w' (VRef l) "lastModifiedDate" = get w (VRef l) "lastModifiedDate" /\
  get w' (VRef l) "lastModified" = get w (VRef l) "lastModified".
Proof.
  intros Hl HT He w'. unfold w'. rewrite (addFileInfo_final w l o T Hl HT).
  cbv zeta. rewrite (stamp_times_refused o _ _ e He).
  set (oF := match escaping _ with Some _ => o | None => _ end).
  assert (Hother : forall k, k <> "name" -> prop_of oF k = prop_of o k).
  { intros k Hk. unfold oF. destruct (escaping _); [reflexivity|].
    now apply stamp_name_other. }
  split; rewrite (get_ref _ l oF) by apply heap_update;
    rewrite (get_ref w l o) by exact Hl; now apply Hother.
Qed.

Lemma addFileInfo_skips_date_after_failure_witness :
  heap sample_world !! 7%positive = Some file_renamable /\
  blob_type (class file_renamable) = Some "audio/ogg" /\
  write_error file_renamable "lastModifiedDate" = None /\
  (exists e, write_error file_renamable "lastModified" = Some e) /\
  get (final_world (addFileInfo (VRef 7) sample_world)) (VRef 7) "lastModifiedDate"
    = VUndefined.
Proof.
  do 3 (split; [by_evaluation|]).
  split; [eexists; by_evaluation|].
  destruct (addFileInfo_skips_date_after_failure sample_world 7%positive file_renamable
              "audio/ogg" (type_error "Cannot set property which has only a getter"))
    as (H & _); [by_evaluation ..|].
  rewrite H. by_evaluation.
Defined.

(** X6. On a file object that refuses both [lastModified] and [name] with
    a [TypeError] (a platform [File], whose two properties are getter-only),
    [addFileInfo] returns normally and the object is exactly what it was:
    no time stamp and no name are attached. *)
Theorem addFileInfo_read_only_file w l o T e1 e2 :
  heap w !! l = Some o ->
  blob_type (class o) = Some T ->
  write_error o "lastModified" = Some e1 -> instanceof_TypeError e1 = true ->
  write_error o "name" = Some e2 -> instanceof_TypeError e2 = true ->
  exists w', addFileInfo (VRef l) w = Return tt w' /\ heap w' !! l = Some o.
Proof.
  intros Hl HT H1 Ht1 H2 Ht2.
  rewrite (addFileInfo_blob w l o T Hl HT). cbv zeta.
  rewrite stamp_times_error, (stamp_times_refused o _ _ e1 H1).
  unfold times_error. rewrite H1. cbn [escaping]. rewrite Ht1.
  unfold stamp_name. rewrite H2. cbn [fst snd escaping]. rewrite Ht2.
  eexists. split; [reflexivity|apply heap_update].
Qed.

Lemma addFileInfo_read_only_file_witness :
  heap sample_world !! 2%positive = Some file_ogg /\
  blob_type (class file_ogg) = Some "audio/ogg" /\
  exists w', addFileInfo (VRef 2) sample_world = Return tt w' /\
             heap w' !! 2%positive = Some file_ogg.
Proof.
  do 2 (split; [by_evaluation|]).
  apply (addFileInfo_read_only_file sample_world 2%positive file_ogg "audio/ogg"
           (type_error "Cannot set property which has only a getter")
           (type_error "Cannot set property which has only a getter"));
    by_evaluation.
Defined.

(** X7. A throw does not undo what was written before it: when the time
    stamps are accepted and the write of [name] raises an error that is not
    a [TypeError], [addFileInfo] throws that error and the file object
    nevertheless carries the new [lastModified], while its [name] is the
    old one. *)
Theorem addFileInfo_keeps_stamp_on_throw w l o T e :
  heap w !! l = Some o ->
  blob_type (class o) = Some T ->
  write_error o "lastModified" = None ->
  escaping (write_error o "lastModifiedDate") = None ->
  write_error o "name" = Some e -> instanceof_TypeError e = false ->
  exists w',
    addFileInfo (VRef l) w = Raise e w' /\
    get w' (VRef l) "lastModified" = VNum (clock w) /\
    get w' (VRef l) "name" = get w (VRef l) "name".
Proof.
  intros Hl HT H1 H2 H3 Hty.
  destruct (addFileInfo_outcome w l o T Hl HT)
    as (w' & o' & Hrun & Hl' & _ & _ & _ & _ & _ & Hname & Hstamp).
  assert (Ht : escaping (times_error o) = None).
  { unfold times_error. now rewrite H1. }
  unfold name_error in *. rewrite Ht, H3 in Hrun. cbn [escaping] in Hrun.
  rewrite Hty in Hrun.
  exists w'. split; [exact Hrun|].
  rewrite !(get_ref w' l o' _ Hl'), (get_ref w l o _ Hl).
  split; [now apply Hstamp|]. apply Hname. now rewrite H3.
Qed.

Lemma addFileInfo_keeps_stamp_on_throw_witness :
  heap sample_world !! 3%positive = Some blob_guarded /\
  blob_type (class blob_guarded) = Some "audio/ogg" /\
  exists w',
    addFileInfo (VRef 3) sample_world = Raise (Exn RangeError "no name") w' /\
    get w' (VRef 3) "lastModified" = VNum 1451180941326 /\
    get w' (VRef 3) "name" = get sample_world (VRef 3) "name".
Proof.
  do 2 (split; [by_evaluation|]).
  apply (addFileInfo_keeps_stamp_on_throw sample_world 3%positive blob_guarded "audio/ogg");
    by_evaluation.
Defined.

(** * The name built from the time stamp *)

Lemma pretty_N_go_no_dot x s :
  indexOf "." s = -1 -> indexOf "." (pretty_N_go x s) = -1.
Proof.
  revert s. induction (N.lt_wf_0 x) as [x _ IH]. intros s Hs.
  assert (x = 0 \/ 0 < x)%N as [->|Hpos] by lia.
  - now rewrite pretty_N_go_0.
  - rewrite pretty_N_go_step by done. apply IH.
    + now apply N.div_lt.
    + apply indexOf_cons_absent_intro; [|exact Hs].
      unfold pretty_N_char. now repeat case_match.
Qed.

Lemma Number_toString_no_dot n : indexOf "." (Number_toString n) = -1.
Proof.
  assert (HN : forall x : N, indexOf "." (pretty x) = -1).
  { intros x. unfold pretty, pretty_N. case_decide; [reflexivity|].
    now apply pretty_N_go_no_dot. }
  unfold Number_toString, pretty, pretty_Z. destruct n as [|p|p].
  - reflexivity.
  - apply HN.
  - rewrite append_cons, append_empty_l.
    apply indexOf_cons_absent_intro; [reflexivity|apply HN].
Qed.

(** X8. The name [addFileInfo] builds, the time stamp followed by the
    guessed extension, gives the time stamp back: it is the part before the
    first dot.  Hence two names built at different times differ, whatever
    the MIME types. *)
Theorem stamped_name_timestamp :
  (forall t type,
     at0 (split "." (Number_toString t ++ guess_extension type))
     = Number_toString t) /\
  (forall t1 t2 type1 type2,
     Number_toString t1 ++ guess_extension type1
     = Number_toString t2 ++ guess_extension type2 ->
     t1 = t2).
Proof.
  assert (Hfst : forall t type,
             at0 (split "." (Number_toString t ++ guess_extension type))
             = Number_toString t).
  { intros t type.
    destruct (guess_extension_shape type) as ((rest & ->) & _).
    rewrite (split_app _ _ _ (Number_toString_no_dot t)), split_sep.
    unfold at0. cbn [fst]. apply append_empty_r. }
  split; [exact Hfst|].
  intros t1 t2 type1 type2 Heq.
  apply (inj (pretty : Z -> string)).
  change (Number_toString t1 = Number_toString t2).
  now rewrite <- (Hfst t1 type1), <- (Hfst t2 type2), Heq.
Qed.

(** * Further properties of dispose *)

Lemma recorded_world_urls_wf : urls_wf recorded_world.
Proof.
  intros u Hu. unfold recorded_world in *. cbn [object_urls url_counter] in *.
  apply elem_of_singleton in Hu as ->.
  exists 0%N. split; [reflexivity|by_evaluation].
Qed.

Lemma ToString_blob w v :
  instanceof_Blob w v = true ->
  ToString w v = "[object Blob]" \/ ToString w v = "[object File]".
Proof.
  unfold instanceof_Blob. destruct v as [| | | | |l]; try discriminate.
  unfold ToString. destruct (class_of w (VRef l)) as [[]|]; try discriminate; auto.
Qed.

Lemma class_string_not_live w s :
  urls_wf w -> s = "[object Blob]" \/ s = "[object File]" -> s ∉ object_urls w.
Proof.
  intros Hwf Hs Hin. destruct (Hwf s Hin) as (n & _ & Heq).
  unfold object_url in Heq. destruct Hs as [-> | ->]; discriminate Heq.
Qed.

(** X9. While the recorded data is a blob or file, [dispose] releases
    nothing: what it hands to [URL.revokeObjectURL] is the blob itself, which
    reads "[object Blob]" (or "[object File]") and is no object URL, so every
    live object URL stays live and the world is as before but for the logged
    call; in particular the recorded data is still there. *)
Theorem dispose_releases_nothing w :
  urls_wf w ->
  instanceof_Blob w (recordedData w) = true ->
  exists s,
    (s = "[object Blob]" \/ s = "[object File]") /\
    dispose w = Return tt (log (EvRevokeObjectURL s) w).
Proof.
  intros Hwf Hblob. exists (ToString w (recordedData w)).
  pose proof (ToString_blob w _ Hblob) as Hs. split; [exact Hs|].
  assert (Hrd : recordedData w <> VUndefined).
  { intros Heq. rewrite Heq in Hblob. discriminate. }
  unfold dispose, bind, this_recordedData.
  rewrite bool_decide_eq_true_2 by exact Hrd.
  unfold URL_revokeObjectURL. cbn [heap recordedData clock object_urls url_counter trace log].
  rewrite difference_disjoint_L; [reflexivity|].
  apply disjoint_singleton_r. now apply class_string_not_live.
Qed.

Lemma dispose_releases_nothing_witness :
  instanceof_Blob recorded_world (recordedData recorded_world) = true /\
  "blob:0" ∈ object_urls recorded_world /\
  exists s, dispose recorded_world
            = Return tt (log (EvRevokeObjectURL s) recorded_world).
Proof.
  split; [by_evaluation|].
  split; [change ("blob:0" ∈ ({[ "blob:0" ]} : gset string));
          now apply elem_of_singleton|].
  destruct (dispose_releases_nothing recorded_world recorded_world_urls_wf)
    as (s & _ & H); [by_evaluation|].
  now exists s.
Defined.



(** X19. When the recorded data is a string, [dispose] does release: that
    string is revoked, so it is no live object URL afterwards, and every
    other live object URL stays live. *)
Theorem dispose_releases_url_string w u :
  recordedData w = VStr u ->
  exists w',
    dispose w = Return tt w' /\
    (u ∉ object_urls w') /\
    (forall u', u' <> u -> u' ∈ object_urls w' <-> u' ∈ object_urls w) /\
    recordedData w' = VStr u.
Proof.
  intros Hrd. unfold dispose, bind, this_recordedData. rewrite Hrd.
  rewrite bool_decide_eq_true_2 by discriminate.
  eexists. split; [reflexivity|].
  cbn [object_urls recordedData log ToString].
  split; [|split; [|exact Hrd]].
  - intros [_ Hout]%elem_of_difference. apply Hout. now apply elem_of_singleton.
  - intros u' Hne. rewrite elem_of_difference, elem_of_singleton. tauto.
Qed.

Lemma dispose_releases_url_string_witness :
  recordedData (set_recordedData (VStr "blob:0") recorded_world) = VStr "blob:0" /\
  exists w',
    dispose (set_recordedData (VStr "blob:0") recorded_world) = Return tt w' /\
    ("blob:0" ∉ object_urls w').
Proof.
  split; [reflexivity|].
  destruct (dispose_releases_url_string
              (set_recordedData (VStr "blob:0") recorded_world) "blob:0")
    as (w' & Hrun & Hout & _); [reflexivity|].
  exists w'. split; [exact Hrun|exact Hout].
Defined.

(** * Further properties of saveAs *)

Lemma ToString_anchor_fresh w w' a o v :
  heap w !! a = None ->
  heap w' = <[a := o]> (heap w) ->
  blob_type (class o) = None ->
  ToString w' v = ToString w v.
Proof.
  intros Ha Hw' Ho. destruct v as [| | | | |l]; try reflexivity.
  unfold ToString, class_of. rewrite Hw'.
  destruct (decide (a = l)) as [<-|Hne].
  - rewrite lookup_insert_eq, Ha. simpl. destruct (class o); done.
  - now rewrite lookup_insert_ne.
Qed.

Lemma saveAs_start p name data w :
  saveAs p name data w =
    (let data := data_to_save w data in
     let fileName := name_to_save name in
     match msSaveOrOpenBlob p, msSaveBlob p with
     | Some f, _ => host_call (EvMsSaveOrOpenBlob data fileName) (f data fileName)
     | None, Some f => host_call (EvMsSaveBlob data fileName) (f data fileName)
     | None, None =>
         do hyperlink <- document_createElement "a";
         do url <- URL_createObjectURL data;
         run put (VRef hyperlink) "href" (VStr url);
         run (fun w => put (VRef hyperlink) "download" (VStr (ToString w fileName)) w);
         run put (VRef hyperlink) "style"
                 (VStr "display:none;opacity:0;color:transparent;");
         run host (EvAppendChild (has_body p) hyperlink);
         run (if has_click p then host (EvClick hyperlink)
              else run put (VRef hyperlink) "target" (VStr "_blank");
                   host (EvDispatchClick hyperlink));
         run (fun w => URL_revokeObjectURL (get w (VRef hyperlink) "href") w);
         ret VUndefined
     end) w.
Proof.
  unfold saveAs, data_to_save, name_to_save.
  destruct (bool_decide (data = VUndefined)); reflexivity.
Qed.

Lemma saveAs_anchor_run p name data w :
  instanceof_Blob w (data_to_save w data) = true ->
  msSaveOrOpenBlob p = None -> msSaveBlob p = None ->
  let a := fresh (dom (heap w)) in
  let url := object_url (url_counter w) in
  exists oF,
    saveAs p name data w =
      Return VUndefined
        (World (<[a := oF]> (heap w)) (recordedData w) (clock w)
               (({[ url ]} ∪ object_urls w) ∖ {[ url ]})
               (N.succ (url_counter w))
               (trace w ++
                [EvCreateElement "a" a;
                 EvCreateObjectURL (data_to_save w data) url;
                 EvAppendChild (has_body p) a;
                 if has_click p then EvClick a else EvDispatchClick a;
                 EvRevokeObjectURL url])) /\
    class oF = Anchor /\
    prop_of oF "href" = VStr url /\
    prop_of oF "download" = VStr (ToString w (name_to_save name)) /\
    prop_of oF "target" = VStr (if has_click p then "" else "_blank").
Proof.
  intros Hblob Hs1 Hs2 a url. rewrite saveAs_start. cbv zeta.
  set (blob := data_to_save w data) in *.
  set (fileName := name_to_save name).
  rewrite Hs1, Hs2.
  set (o0 := Object Anchor true
               (<["href" := Data (VStr "")]>
                (<["download" := Data (VStr "")]>
                 (<["target" := Data (VStr "")]> ∅)))).
  assert (Hk0 : key_value_store o0 = true) by by_evaluation.
  set (w1 := log (EvCreateElement "a" a) (update a o0 w)).
  rewrite (bind_return (document_createElement "a") _ w a w1) by reflexivity.
  set (w2 := World (heap w1) (recordedData w1) (clock w1)
                   ({[ url ]} ∪ object_urls w1) (N.succ (url_counter w1))
                   (trace w1 ++ [EvCreateObjectURL blob url])).
  assert (H2 : URL_createObjectURL blob w1 = Return url w2).
  { unfold URL_createObjectURL.
    assert (instanceof_Blob w1 blob = true) as ->; [|reflexivity].
    apply (instanceof_Blob_update w a o0 blob (fresh_loc_unused w) Hblob). }
  rewrite (bind_return _ _ w1 url w2 H2).
  set (o1 := with_prop o0 "href" (VStr url)).
  set (o2 := with_prop o1 "download" (VStr (ToString w fileName))).
  set (o3 := with_prop o2 "style" (VStr "display:none;opacity:0;color:transparent;")).
  assert (Hk1 : key_value_store o1 = true) by now apply key_value_store_with_prop.
  assert (Hk2 : key_value_store o2 = true) by now apply key_value_store_with_prop.
  assert (Hk3 : key_value_store o3 = true) by now apply key_value_store_with_prop.
  assert (Hl2 : heap w2 !! a = Some o0) by apply heap_update.
  rewrite (bind_return _ _ w2 tt (update a o1 w2) (put_store w2 a o0 _ _ Hl2 Hk0)).
  assert (Hstr : ToString (update a o1 w2) fileName = ToString w fileName).
  { apply (ToString_anchor_fresh w _ a o1); [apply fresh_loc_unused| |reflexivity].
    unfold update, set_heap. cbn [heap]. apply insert_insert_eq. }
  rewrite (bind_return
             (fun w0 => put (VRef a) "download" (VStr (ToString w0 fileName)) w0)
             _ (update a o1 w2) tt (update a o2 (update a o1 w2))).
  2: { cbv beta. rewrite Hstr.
       apply (put_store _ a o1); [apply heap_update|exact Hk1]. }
  rewrite update_update.
  rewrite (bind_return _ _ (update a o2 w2) tt (update a o3 (update a o2 w2)))
    by (apply (put_store _ a o2); [apply heap_update|exact Hk2]).
  rewrite update_update.
  set (w4 := log (EvAppendChild (has_body p) a) (update a o3 w2)).
  rewrite (bind_return _ _ (update a o3 w2) tt w4) by reflexivity.
  set (o5 := if has_click p then o3 else with_prop o3 "target" (VStr "_blank")).
  set (w5 := log (if has_click p then EvClick a else EvDispatchClick a)
                 (update a o5 w4)).
  assert (H5 : (if has_click p then host (EvClick a)
                else bind (put (VRef a) "target" (VStr "_blank"))
                          (fun _ => host (EvDispatchClick a))) w4
               = Return tt w5).
  { unfold w5, o5. destruct (has_click p).
    - unfold host. rewrite update_id; [reflexivity|apply heap_update].
    - rewrite (bind_return _ _ w4 tt (update a (with_prop o3 "target" (VStr "_blank")) w4));
        [reflexivity|].
      apply (put_store _ a o3); [apply heap_update|exact Hk3]. }
  rewrite (bind_return _ _ w4 tt w5 H5).
  assert (Hl5 : heap w5 !! a = Some o5) by apply heap_update.
  assert (Hhref : prop_of o5 "href" = VStr url).
  { unfold o5. destruct (has_click p);
      rewrite ?(prop_of_with_prop_ne _ "target") by done;
      unfold o3, o2; rewrite !prop_of_with_prop_ne by done; apply prop_of_with_prop. }
  assert (Hdl : prop_of o5 "download" = VStr (ToString w fileName)).
  { unfold o5. destruct (has_click p);
      rewrite ?(prop_of_with_prop_ne _ "target") by done;
      unfold o3; rewrite prop_of_with_prop_ne by done; apply prop_of_with_prop. }
  assert (Htarget : prop_of o5 "target" = VStr (if has_click p then "" else "_blank")).
  { unfold o5. destruct (has_click p); [|apply prop_of_with_prop].
    unfold o3, o2, o1. now rewrite !prop_of_with_prop_ne by done. }
  set (w6 := World (heap w5) (recordedData w5) (clock w5)
                   (object_urls w5 ∖ {[ url ]}) (url_counter w5)
                   (trace w5 ++ [EvRevokeObjectURL url])).
  assert (H6 : URL_revokeObjectURL (get w5 (VRef a) "href") w5 = Return tt w6).
  { rewrite (get_ref w5 a o5 _ Hl5), Hhref. reflexivity. }
  rewrite (bind_return (fun w => URL_revokeObjectURL (get w (VRef a) "href") w)
             _ w5 tt w6 H6).
  exists o5. split.
  - unfold ret. f_equal. unfold w6, w5, w4, w2, w1, update, set_heap, log.
    cbn [heap recordedData clock object_urls url_counter trace].
    rewrite !insert_insert_eq, <- !app_assoc. reflexivity.
  - split; [unfold o5; now destruct (has_click p)|].
    split; [exact Hhref|]. split; [exact Hdl|exact Htarget].
Qed.

Lemma object_url_inj n m : object_url n = object_url m -> n = m.
Proof.
  unfold object_url. intros H. apply (inj (append "blob:")) in H.
  now apply (inj (pretty : N -> string)).
Qed.

Lemma next_url_not_live w : urls_wf w -> object_url (url_counter w) ∉ object_urls w.
Proof.
  intros Hwf Hin. destruct (Hwf _ Hin) as (n & Hlt & Heq).
  apply object_url_inj in Heq. lia.
Qed.

Lemma create_then_revoke (url : string) (X : gset string) :
  url ∉ X -> ({[ url ]} ∪ X) ∖ {[ url ]} = X.
Proof.
  intros Hout. apply set_eq. intros x.
  rewrite elem_of_difference, elem_of_union, !elem_of_singleton.
  split; [intros [[->|Hx] Hne]; [contradiction|exact Hx]|].
  intros Hx. split; [now right|]. intros ->. contradiction.
Qed.

(** X11. [saveAs] on a platform without the legacy save functions, for a
    blob given or, [data] being left out, for the recorded blob: the object
    URL it creates is a new one and it is the one it revokes, so the call
    leaks nothing: the live object URLs after the call are exactly those
    before it (and the store stays well formed); the recorded data and every
    object that existed are untouched. *)
Theorem saveAs_leaks_no_url p name data w :
  urls_wf w ->
  instanceof_Blob w (data_to_save w data) = true ->
  msSaveOrOpenBlob p = None -> msSaveBlob p = None ->
  exists w',
    saveAs p name data w = Return VUndefined w' /\
    (object_url (url_counter w) ∉ object_urls w) /\
    (EvCreateObjectURL (data_to_save w data) (object_url (url_counter w))
       ∈ new_events w w') /\
    object_urls w' = object_urls w /\
    urls_wf w' /\
    recordedData w' = recordedData w /\
    (forall l o, heap w !! l = Some o -> heap w' !! l = Some o).
Proof.
  intros Hwf Hblob Hs1 Hs2.
  destruct (saveAs_anchor_run p name data w Hblob Hs1 Hs2) as (oF & Hrun & _).
  pose proof (next_url_not_live w Hwf) as Hnew.
  eexists. split; [exact Hrun|]. split; [exact Hnew|].
  cbn [heap recordedData clock object_urls url_counter trace].
  split; [|split; [|split; [|split]]].
  - unfold new_events. cbn [trace]. rewrite drop_app_length.
    apply list_elem_of_further, list_elem_of_here.
  - now apply create_then_revoke.
  - intros u Hu. cbn [object_urls url_counter] in *.
    rewrite create_then_revoke in Hu by exact Hnew.
    destruct (Hwf u Hu) as (n & Hlt & Heq). exists n. split; [lia|exact Heq].
  - reflexivity.
  - intros l o Hl. rewrite lookup_insert_ne; [exact Hl|].
    intros <-. rewrite fresh_loc_unused in Hl. discriminate.
Qed.

Lemma saveAs_leaks_no_url_witness :
  instanceof_Blob recorded_world (data_to_save recorded_world VUndefined) = true /\
  exists w',
    saveAs no_legacy_save [("audio", VStr "take")] VUndefined recorded_world
      = Return VUndefined w' /\
    object_urls w' = object_urls recorded_world.
Proof.
  split; [by_evaluation|].
  destruct (saveAs_leaks_no_url no_legacy_save [("audio", VStr "take")] VUndefined
              recorded_world recorded_world_urls_wf)
    as (w' & Hrun & _ & _ & Hurls & _); [by_evaluation | reflexivity ..|].
  exists w'. split; [exact Hrun|exact Hurls].
Defined.

Lemma instanceof_Blob_anchor_fresh w a o v :
  heap w !! a = None -> blob_type (class o) = None ->
  instanceof_Blob (update a o w) v = instanceof_Blob w v.
Proof.
  intros Ha Ho. unfold instanceof_Blob, class_of.
  destruct v as [| | | | |l]; try reflexivity.
  destruct (decide (a = l)) as [<-|Hne].
  - rewrite heap_update, Ha. simpl. destruct (class o); done.
  - now rewrite heap_update_ne.
Qed.

(** X12. [saveAs] without a legacy save function and with nothing to
    save (the data, or the recorded data when [data] is left out, is not a
    blob: before any recording it is [undefined]) throws the [TypeError] of
    [URL.createObjectURL].  By then the anchor element has been created,
    and that is all: it is never appended nor clicked, no object URL is
    created or revoked, and nothing that existed has changed. *)
Theorem saveAs_without_blob p name data w :
  instanceof_Blob w (data_to_save w data) = false ->
  msSaveOrOpenBlob p = None -> msSaveBlob p = None ->
  exists msg w',
    saveAs p name data w = Raise (Exn TypeError msg) w' /\
    trace w' = (trace w ++ [EvCreateElement "a" (fresh (dom (heap w)))])%list /\
    object_urls w' = object_urls w /\
    url_counter w' = url_counter w /\
    recordedData w' = recordedData w /\
    (forall l o, heap w !! l = Some o -> heap w' !! l = Some o).
Proof.
  intros Hblob Hs1 Hs2. rewrite saveAs_start. cbv zeta. rewrite Hs1, Hs2.
  set (a := fresh (dom (heap w))).
  set (o0 := Object Anchor true
               (<["href" := Data (VStr "")]>
                (<["download" := Data (VStr "")]>
                 (<["target" := Data (VStr "")]> ∅)))).
  set (w1 := log (EvCreateElement "a" a) (update a o0 w)).
  rewrite (bind_return (document_createElement "a") _ w a w1) by reflexivity.
  assert (H1 : instanceof_Blob w1 (data_to_save w data) = false).
  { rewrite <- Hblob.
    apply (instanceof_Blob_anchor_fresh w a o0); [apply fresh_loc_unused|reflexivity]. }
  unfold bind at 1. unfold URL_createObjectURL. rewrite H1.
  eexists _, w1. split; [reflexivity|].
  do 4 (split; [reflexivity|]).
  intros l o Hl. unfold w1. cbn [heap log]. rewrite heap_update_ne; [exact Hl|].
  intros <-. unfold a in Hl. rewrite fresh_loc_unused in Hl. discriminate.
Qed.

Lemma saveAs_without_blob_witness :
  instanceof_Blob sample_world (data_to_save sample_world VUndefined) = false /\
  exists msg w',
    saveAs no_legacy_save [("video", VStr "clip")] VUndefined sample_world
      = Raise (Exn TypeError msg) w' /\
    object_urls w' = object_urls sample_world.
Proof.
  split; [by_evaluation|].
  destruct (saveAs_without_blob no_legacy_save [("video", VStr "clip")] VUndefined
              sample_world)
    as (msg & w' & Hrun & _ & Hurls & _); [by_evaluation | reflexivity ..|].
  exists msg, w'. split; [exact Hrun|exact Hurls].
Defined.

(** X13. Only the first entry of the name object counts: [saveAs] with
    further entries behind it is [saveAs] with that entry alone. *)
Theorem saveAs_ignores_later_names p key fileName rest data w :
  saveAs p ((key, fileName) :: rest) data w = saveAs p [(key, fileName)] data w.
Proof.
  rewrite !saveAs_start. unfold name_to_save. now rewrite !member_first.
Qed.

(** X14. With an empty name object there is no first key: the file name is
    [undefined].  A legacy save function is handed [undefined] as the name;
    otherwise the anchor's [download] attribute reads "undefined". *)
Theorem saveAs_empty_name p data w :
  instanceof_Blob w (data_to_save w data) = true ->
  match msSaveOrOpenBlob p, msSaveBlob p with
  | Some save, _ =>
      saveAs p [] data w =
        host_call (EvMsSaveOrOpenBlob (data_to_save w data) VUndefined)
                  (save (data_to_save w data) VUndefined) w
  | None, Some save =>
      saveAs p [] data w =
        host_call (EvMsSaveBlob (data_to_save w data) VUndefined)
                  (save (data_to_save w data) VUndefined) w
  | None, None =>
      exists w',
        saveAs p [] data w = Return VUndefined w' /\
        created_elements (new_events w w') = [fresh (dom (heap w))] /\
        get w' (VRef (fresh (dom (heap w)))) "download" = VStr "undefined"
  end.
Proof.
  intros Hblob.
  destruct (msSaveOrOpenBlob p) as [save|] eqn:Hs1;
    [|destruct (msSaveBlob p) as [save|] eqn:Hs2].
  - rewrite saveAs_start. cbv zeta. now rewrite Hs1.
  - rewrite saveAs_start. cbv zeta. now rewrite Hs1, Hs2.
  - destruct (saveAs_anchor_run p [] data w Hblob Hs1 Hs2)
      as (oF & Hrun & _ & _ & Hdl & _).
    eexists. split; [exact Hrun|]. split.
    + unfold new_events. cbn [trace]. rewrite drop_app_length.
      now destruct (has_click p).
    + unfold get. cbn [heap]. rewrite lookup_insert_eq. exact Hdl.
Qed.

Lemma saveAs_empty_name_witness :
  instanceof_Blob sample_world (data_to_save sample_world (VRef 1)) = true /\
  exists w',
    saveAs no_legacy_save [] (VRef 1) sample_world = Return VUndefined w' /\
    get w' (VRef (fresh (dom (heap sample_world)))) "download" = VStr "undefined".
Proof.
  split; [by_evaluation|].
  destruct (saveAs_empty_name no_legacy_save (VRef 1) sample_world)
    as (w' & Hrun & _ & Hdl); [by_evaluation|].
  exists w'. split; [exact Hrun|exact Hdl].
Defined.

(** * Further properties of onStopRecording *)




Lemma onStopRecording_result w l o T :
  heap w !! l = Some o -> blob_type (class o) = Some T ->
  escaping (times_error o) = None -> escaping (name_error o) = None ->
  exists w' o',
    onStopRecording (VRef l) w = Return tt w' /\
    heap w' !! l = Some o' /\
    class o' = class o /\
    recordedData w' = VRef l /\
    object_urls w' = object_urls w ∖ {[ ToString w (VRef l) ]}.
Proof.
  intros Hl HT Ht Hn.
  set (w1 := set_recordedData (VRef l) w).
  assert (Hl1 : heap w1 !! l = Some o) by exact Hl.
  destruct (addFileInfo_outcome w1 l o T Hl1 HT)
    as (w2 & o2 & Hrun & Hl2 & Hc2 & Hrd2 & _ & Hurls2 & _).
  rewrite Ht, Hn in Hrun.
  assert (Hstr : ToString w2 (VRef l) = ToString w (VRef l)).
  { apply ToString_class. unfold class_of. rewrite Hl2, Hl. simpl. now rewrite Hc2. }
  unfold onStopRecording.
  rewrite (bind_return (assign_recordedData (VRef l)) _ w tt w1) by reflexivity.
  rewrite (bind_return this_recordedData _ w1 (VRef l) w1) by reflexivity.
  rewrite (bind_return _ _ w1 tt w2 Hrun).
  unfold dispose, bind, this_recordedData, trigger.
  change (recordedData w1) with (VRef l) in Hrd2. rewrite Hrd2.
  rewrite bool_decide_eq_true_2 by discriminate.
  eexists _, o2. split; [reflexivity|].
  cbn [heap recordedData object_urls log].
  split; [exact Hl2|]. split; [exact Hc2|]. split; [exact Hrd2|].
  now rewrite Hstr, Hurls2.
Qed.

(** X16. Nothing stops [saveAs] after [onStopRecording] has disposed: once
    [onStopRecording] has returned for a blob, [saveAs] with [data] left out
    (no legacy save function) saves that very blob: it creates the object
    URL for it, offers it under the given name and returns, the blob still
    being the recorded data. *)
Theorem saveAs_after_onStopRecording p w l o T key fileName rest :
  heap w !! l = Some o ->
  blob_type (class o) = Some T ->
  escaping (times_error o) = None ->
  escaping (name_error o) = None ->
  msSaveOrOpenBlob p = None -> msSaveBlob p = None ->
  exists w1 w2 a url,
    onStopRecording (VRef l) w = Return tt w1 /\
    saveAs p ((key, VStr fileName) :: rest) VUndefined w1 = Return VUndefined w2 /\
    (EvCreateObjectURL (VRef l) url ∈ new_events w1 w2) /\
    get w2 (VRef a) "href" = VStr url /\
    get w2 (VRef a) "download" = VStr fileName /\
    recordedData w2 = VRef l.
Proof.
  intros Hl HT Ht Hn Hs1 Hs2.
  destruct (onStopRecording_result w l o T Hl HT Ht Hn)
    as (w1 & o1 & Hrun & Hl1 & Hc1 & Hrd1 & _).
  assert (Hdata : data_to_save w1 VUndefined = VRef l) by exact Hrd1.
  assert (Hblob : instanceof_Blob w1 (data_to_save w1 VUndefined) = true).
  { rewrite Hdata. apply (instanceof_Blob_ref w1 l o1 T Hl1). now rewrite Hc1. }
  destruct (saveAs_anchor_run p ((key, VStr fileName) :: rest) VUndefined w1
              Hblob Hs1 Hs2) as (oF & Hsave & _ & Hhref & Hdl & _).
  rewrite Hdata in Hsave. unfold name_to_save in Hdl. rewrite member_first in Hdl.
  eexists w1, _, (fresh (dom (heap w1))), (object_url (url_counter w1)).
  split; [exact Hrun|]. split; [exact Hsave|].
  split; [|split; [|split]].
  - unfold new_events. cbn [trace]. rewrite drop_app_length.
    apply list_elem_of_further, list_elem_of_here.
  - unfold get. cbn [heap]. rewrite lookup_insert_eq. exact Hhref.
  - unfold get. cbn [heap]. rewrite lookup_insert_eq. exact Hdl.
  - cbn [recordedData]. exact Hrd1.
Qed.

Lemma saveAs_after_onStopRecording_witness :
  heap sample_world !! 1%positive = Some blob_ogg /\
  blob_type (class blob_ogg) = Some "audio/ogg" /\
  exists w1 w2 a url,
    onStopRecording (VRef 1) sample_world = Return tt w1 /\
    saveAs no_legacy_save [("audio", VStr "take")] VUndefined w1
      = Return VUndefined w2 /\
    (EvCreateObjectURL (VRef 1) url ∈ new_events w1 w2) /\
    get w2 (VRef a) "href" = VStr url /\
    get w2 (VRef a) "download" = VStr "take" /\
    recordedData w2 = VRef 1.
Proof.
  do 2 (split; [by_evaluation|]).
  apply (saveAs_after_onStopRecording no_legacy_save sample_world 1%positive blob_ogg
           "audio/ogg" "audio" "take" []); by_evaluation.
Defined.

(** * Further properties of the constructor *)

(** X17. The constructor fails before the base class is involved whenever
    [options.evented] cannot be written: on a primitive (a boolean, a number
    or a string, on which strict code cannot create a property) it throws a
    [TypeError]; on an object that refuses the write (a getter-only or
    raising [evented], or a non-extensible object without one) it throws the
    error of that write.  The world is left as it was and the outcome does
    not depend on the base constructor. *)
Theorem constructor_write_refused C player w :
  (forall options,
     match options with VBool _ | VNum _ | VStr _ => True | _ => False end ->
     exists msg, constructor C player options w = Raise (Exn TypeError msg) w) /\
  (forall l o e,
     heap w !! l = Some o -> write_error o "evented" = Some e ->
     constructor C player (VRef l) w = Raise e w).
Proof.
  split.
  - intros options Hprim. destruct options; try contradiction;
      eexists; reflexivity.
  - intros l o e Hl He. unfold constructor, bind.
    now rewrite (put_ref w l o _ _ Hl), He.
Qed.

(** X18. On an options bag the constructor passes the caller's object on
    to the base constructor with [evented] set and everything else as it
    was: its other entries, every other object, the recorded data and the
    log are unchanged, and the object is still a key/value store. *)
Theorem constructor_passes_options_on C player options w :
  options_bag w options = true ->
  exists w1,
    constructor C player options w = C player options w1 /\
    options_bag w1 options = true /\
    (forall k, k <> "evented" -> get w1 options k = get w options k) /\
    (forall v k, v <> options -> get w1 v k = get w v k) /\
    dom (heap w1) = dom (heap w) /\
    recordedData w1 = recordedData w /\
    trace w1 = trace w.
Proof.
  unfold options_bag. destruct options as [| | | | |l]; try discriminate.
  destruct (heap w !! l) as [o|] eqn:Hl; [cbn [from_option]|discriminate].
  intros Hstore.
  set (o1 := with_prop o "evented" (VBool true)).
  exists (update l o1 w).
  assert (Hput : put (VRef l) "evented" (VBool true) w = Return tt (update l o1 w))
    by now apply put_store.
  split; [unfold constructor, bind; now rewrite Hput|].
  split; [rewrite heap_update; cbn [from_option];
          now apply key_value_store_with_prop|].
  split; [|split; [|split; [|split; reflexivity]]].
  - intros k Hk. rewrite (get_ref _ l o1) by apply heap_update.
    rewrite (get_ref w l o _ Hl). apply prop_of_with_prop_ne. congruence.
  - intros v k Hv. destruct v as [| | | | |l']; try reflexivity.
    unfold get. rewrite heap_update_ne; [reflexivity|congruence].
  - unfold update, set_heap. cbn [heap]. rewrite dom_insert_L.
    apply subseteq_union_1_L, singleton_subseteq_l, elem_of_dom. eauto.
Qed.

Lemma constructor_passes_options_on_witness :
  options_bag sample_world (VRef 4) = true /\
  exists w1,
    constructor Component_merge VNull (VRef 4) sample_world
      = Component_merge VNull (VRef 4) w1 /\
    get w1 (VRef 1) "name" = get sample_world (VRef 1) "name" /\
    trace w1 = trace sample_world.
Proof.
  split; [by_evaluation|].
  destruct (constructor_passes_options_on Component_merge VNull (VRef 4) sample_world)
    as (w1 & Hrun & _ & _ & Hother & _ & _ & Htr); [by_evaluation|].
  exists w1. split; [exact Hrun|]. split; [|exact Htr].
  apply Hother. discriminate.
Defined.
